(** * claude-swarm: the orchestrator and its patterns, embedded in Rocq

    A shallow embedding of [src/claude_swarm/swarm.py] and
    [src/claude_swarm/patterns.py].  Python dictionaries are insertion-ordered
    association lists, results are dictionaries of JSON values, and the
    effects of the program (the spawned [claude] process, the wall clock, the
    file system, the event loop's completion order) are explicit. *)

From Stdlib Require Import ZArith String Ascii List Lia.
From stdpp Require Import base option list strings pretty gmap.

Set Warnings "-register-all".
Local Open Scope string_scope.
Local Open Scope list_scope.

(** ** JSON values

    The values [json.loads] produces and [json.dumps] accepts.  Floats are
    left out: nothing in the orchestrator computes with them. *)

Inductive json : Type :=
| JNull
| JBool (b : bool)
| JInt (z : Z)
| JStr (s : string)
| JList (l : list json)
| JDict (d : list (string * json)).

(** ** Python dictionaries and slices *)

Module PyDict.

(** A [dict] with string keys: the pairs in insertion order. *)
Definition t (V : Type) : Type := list (string * V).

Fixpoint get {V} (k : string) (d : t V) : option V :=
  match d with
  | [] => None
  | (k', v) :: d' => if String.eqb k k' then Some v else get k d'
  end.

(** [k in d] *)
Definition contains {V} (k : string) (d : t V) : bool :=
  match get k d with Some _ => true | None => false end.

(** [d[k] = v]: an existing key keeps its position, a new one goes last. *)
Fixpoint set {V} (k : string) (v : V) (d : t V) : t V :=
  match d with
  | [] => [(k, v)]
  | (k', v') :: d' =>
      if String.eqb k k' then (k, v) :: d' else (k', v') :: set k v d'
  end.

(** [del d[k]] *)
Fixpoint del {V} (k : string) (d : t V) : t V :=
  match d with
  | [] => []
  | (k', v') :: d' => if String.eqb k k' then d' else (k', v') :: del k d'
  end.

(** The dictionary display that unpacks [d], then [e]: the entries of [e]
    written into [d] one after another. *)
Definition update {V} (d e : t V) : t V :=
  fold_left (fun acc kv => set (fst kv) (snd kv) acc) e d.

(** [d.get(k, default)] *)
Definition get_default {V} (k : string) (default : V) (d : t V) : V :=
  match get k d with Some v => v | None => default end.

Definition keys {V} (d : t V) : list string := map fst d.

End PyDict.

(** [l[-n:]] for [n > 0]: the last [n] elements, all of [l] when it is
    shorter. *)
Definition last_n {A} (n : nat) (l : list A) : list A :=
  drop (length l - n) l.

(** The truth value Python gives a string and a list. *)
Definition str_truthy (s : string) : bool :=
  match s with EmptyString => false | _ => true end.

Definition list_truthy {A} (l : list A) : bool :=
  match l with [] => false | _ => true end.

Definition nl : string := String "010" EmptyString.

(** ** swarm.py: the data model *)

Record Agent : Type := mkAgent {
  name : string;
  role : string;
  system_prompt : string;
  memory : list json;
  allowed_tools : option (list string);
}.

Record SwarmState : Type := mkSwarmState {
  agents : PyDict.t Agent;
  shared_context : PyDict.t json;
  history : list json;
}.

(** [SwarmState()] *)
Definition empty_state : SwarmState := mkSwarmState [] [] [].

(** The fields [Swarm.__init__] sets.  The semaphore is represented by its
    bound [max_concurrent]; [cwd] holds the resolved directory. *)
Record Swarm : Type := mkSwarm {
  state : SwarmState;
  max_concurrent : Z;
  cwd : string;
  output_format : string;
}.

Definition with_state (self : Swarm) (st : SwarmState) : Swarm :=
  mkSwarm st (max_concurrent self) (cwd self) (output_format self).

Definition set_agents (st : SwarmState) (ag : PyDict.t Agent) : SwarmState :=
  mkSwarmState ag (shared_context st) (history st).

Definition set_history (st : SwarmState) (h : list json) : SwarmState :=
  mkSwarmState (agents st) (shared_context st) h.

Definition set_memory (a : Agent) (m : list json) : Agent :=
  mkAgent (name a) (role a) (system_prompt a) m (allowed_tools a).

(** ** The world outside the program

    What the orchestrator gets from outside: the standard library's JSON
    serializer and parser, the external [claude] process and the wall clock.
    [run_process n argv dir] is what the [n]-th process spawned during a run
    does when started with arguments [argv] in directory [dir];
    [isoformat_now n] is the [n]-th reading of
    [datetime.now().isoformat()]; [path_resolve] is [Path.resolve], which
    depends on the file system.  [json_loads] gives the parsed value, or
    [None] when [json.loads] raises [JSONDecodeError], the one error the
    program catches.  Text is a string of code points below 256. *)

Record Completed : Type := mkCompleted {
  returncode : Z;
  stdout : string;
  stderr : string;
}.

Class World : Type := {
  json_dumps : json -> string;            (* json.dumps(., indent=2) *)
  json_loads : string -> option json;     (* None: JSONDecodeError *)
  run_process : nat -> list string -> string -> Completed;
  isoformat_now : nat -> string;
  path_resolve : string -> string;
}.

(** [Swarm(max_concurrent=.., cwd=..)]: [asyncio.Semaphore] raises
    [ValueError] on a negative bound, so no object is built then. *)
Definition new_swarm {W : World} (max_conc : Z) (dir : string)
  : option Swarm :=
  if (max_conc <? 0)%Z then None
  else Some (mkSwarm empty_state max_conc (path_resolve dir) "json").

(** ** Prompt assembly *)

Section Prompt.

Context {W : World}.

Definition identity_line (agent : Agent) : string :=
  "You are " +:+ name agent +:+ ", a " +:+ role agent +:+ ".".

Definition context_block (ctx : PyDict.t json) : string :=
  nl +:+ "## Shared Context" +:+ nl +:+ json_dumps (JDict ctx).

Definition memory_block (recent : list json) : string :=
  nl +:+ "## Your Recent Memory" +:+ nl +:+ json_dumps (JList recent).

Definition task_block (task : string) : string :=
  nl +:+ "## Task" +:+ nl +:+ task.

(** [Swarm._build_prompt] *)
Definition _build_prompt (st : SwarmState) (agent : Agent) (task : string)
  : string :=
  let parts := [] in
  let parts :=
    if str_truthy (role agent) then parts ++ [identity_line agent]
    else parts in
  let parts :=
    if str_truthy (system_prompt agent) then parts ++ [system_prompt agent]
    else parts in
  let parts :=
    if list_truthy (shared_context st)
    then parts ++ [context_block (shared_context st)]
    else parts in
  let parts :=
    if list_truthy (memory agent)
    then let recent := last_n 5 (memory agent) in
         parts ++ [memory_block recent]
    else parts in
  let parts := parts ++ [task_block task] in
  String.concat (nl +:+ nl) parts.

End Prompt.

(** ** Coroutines and the event loop

    Every coroutine of the program suspends at most once, while its external
    process runs.  A coroutine is its first segment, which ends by returning,
    by suspending with the segment that runs once it is resumed, or by
    waiting for ever. *)

Inductive step (S R : Type) : Type :=
| Return (r : R)
| Await (k : S -> S * R)
| Hang.
Arguments Return {S R} r.
Arguments Await {S R} k.
Arguments Hang {S R}.

Definition coroutine (S R : Type) : Type := S -> S * step S R.

(** [r = await c; return f(r)] where [f] does not suspend. *)
Definition then_co {S A B} (c : coroutine S A) (f : A -> S -> S * B)
  : coroutine S B :=
  fun s =>
    match c s with
    | (s1, Return a) => let '(s2, b) := f a s1 in (s2, Return b)
    | (s1, Await k) => (s1, Await (fun s' => let '(s2, a) := k s' in f a s2))
    | (s1, Hang) => (s1, Hang)
    end.

(** [await c] with nothing else running: the coroutine is resumed as soon as
    it has suspended.  [None]: the caller never gets a value. *)
Definition await_co {S R} (c : coroutine S R) (s : S) : option (S * R) :=
  match c s with
  | (s1, Return r) => Some (s1, r)
  | (s1, Await k) => Some (k s1)
  | (_, Hang) => None
  end.

(** [asyncio.gather] over the children [cs].  The loop starts the children
    in argument order, each running up to its suspension; then they are resumed in the order
    their processes complete, [order], a list of argument positions.  Each
    child's value is stored at its own position.  [gather] returns once every
    position is filled. *)
Fixpoint start_all {S R} (cs : list (coroutine S R)) (s : S)
  : S * list (step S R) :=
  match cs with
  | [] => (s, [])
  | c :: cs' =>
      let '(s1, st) := c s in
      let '(s2, sts) := start_all cs' s1 in
      (s2, st :: sts)
  end.

Definition slot_of {S R} (st : step S R) : option R :=
  match st with Return r => Some r | _ => None end.

Definition resume {S R} (steps : list (step S R))
  (acc : S * list (option R)) (i : nat) : S * list (option R) :=
  match steps !! i, snd acc !! i with
  | Some (Await k), Some None =>
      let '(s', r) := k (fst acc) in (s', <[i := Some r]> (snd acc))
  | _, _ => acc
  end.

Definition gather {S R} (cs : list (coroutine S R)) (order : list nat) (s : S)
  : option (S * list R) :=
  let '(s1, steps) := start_all cs s in
  let '(s2, slots) := fold_left (resume steps) order (s1, map slot_of steps) in
  match mapM id slots with
  | Some rs => Some (s2, rs)
  | None => None
  end.

(** ** The orchestrator *)

(** What a run has done to the world so far: the processes it spawned, with
    arguments and directory, and how often it read the clock. *)
Record Env : Type := mkEnv {
  spawned : list (list string * string);
  ticks : nat;
}.

Definition Sys : Type := Swarm * Env.

Definition result_dict : Type := PyDict.t json.

(** [str.strip()].  A character of a string here is a code point below
    256; the ones [str.strip()] removes are those [str.isspace] accepts:
    9 to 13, 28 to 32, 133 (next line) and 160 (no-break space). *)
Definition is_space (c : ascii) : bool :=
  let n := nat_of_ascii c in
  ((9 <=? n)%nat && (n <=? 13)%nat) || ((28 <=? n)%nat && (n <=? 32)%nat)
  || (n =? 133)%nat || (n =? 160)%nat.

Fixpoint lstrip (s : string) : string :=
  match s with
  | EmptyString => EmptyString
  | String c s' => if is_space c then lstrip s' else s
  end.

Fixpoint rstrip (s : string) : string :=
  match s with
  | EmptyString => EmptyString
  | String c s' =>
      match rstrip s' with
      | EmptyString => if is_space c then EmptyString else String c EmptyString
      | r => String c r
      end
  end.

Definition strip (s : string) : string := rstrip (lstrip s).

Section Orchestrator.

Context {W : World}.

(** [Swarm.add_agent] *)
Definition add_agent (self : Swarm) (nm rl sp : string)
  (tools : option (list string)) : Swarm * Agent :=
  let agent := mkAgent nm rl sp [] tools in
  (with_state self
     (set_agents (state self) (PyDict.set nm agent (agents (state self)))),
   agent).

(** [Swarm.remove_agent] *)
Definition remove_agent (self : Swarm) (nm : string) : Swarm * bool :=
  if PyDict.contains nm (agents (state self))
  then (with_state self
          (set_agents (state self) (PyDict.del nm (agents (state self)))),
        true)
  else (self, false).

(** [Swarm.update_context] and [Swarm.clear_context] *)
Definition update_context (self : Swarm) (key : string) (value : json)
  : Swarm :=
  with_state self
    (mkSwarmState (agents (state self))
       (PyDict.set key value (shared_context (state self)))
       (history (state self))).

Definition clear_context (self : Swarm) : Swarm :=
  with_state self
    (mkSwarmState (agents (state self)) [] (history (state self))).

(** [datetime.now().isoformat()] *)
Definition now (env : Env) : string * Env :=
  (isoformat_now (ticks env), mkEnv (spawned env) (S (ticks env))).

(** The command line [_invoke_claude] builds. *)
Definition command_line (self : Swarm) (prompt : string)
  (tools : option (list string)) : list string :=
  let cmd := ["claude"; "-p"; prompt; "--output-format"; output_format self] in
  match tools with
  | Some (t :: ts) =>
      cmd ++ ["--allowedTools"; String.concat "," (t :: ts)]
  | _ => cmd
  end.

(** What [_invoke_claude] returns for a finished process. *)
Definition process_result (proc : Completed) : result_dict :=
  if negb (returncode proc =? 0)%Z then
    [("success", JBool false);
     ("error", JStr (strip (stderr proc)));
     ("returncode", JInt (returncode proc))]
  else
    match json_loads (stdout proc) with
    | Some result => [("success", JBool true); ("result", result)]
    | None => [("success", JBool true); ("result", JStr (strip (stdout proc)))]
    end.

(** [Swarm._invoke_claude].  The semaphore lets a call in when fewer than
    [max_concurrent] are in flight and serves waiters first come first
    served, so processes start in the order of the calls; with a bound
    below one no call ever gets in. *)
Definition _invoke_claude (prompt : string) (tools : option (list string))
  (dir : option string) : coroutine Sys result_dict :=
  fun '(self, env) =>
    if (max_concurrent self <? 1)%Z then ((self, env), Hang)
    else
      let cmd := command_line self prompt tools in
      let wd := match dir with Some d => d | None => cwd self end in
      let proc := run_process (length (spawned env)) cmd wd in
      ((self, mkEnv (spawned env ++ [(cmd, wd)]) (ticks env)),
       Await (fun s => (s, process_result proc))).

(** [Swarm.invoke] *)
Definition not_found (agent_name : string) : result_dict :=
  [("success", JBool false);
   ("error", JStr ("Agent '" +:+ agent_name +:+ "' not found"))].

(** [result["success"]], which [_invoke_claude] always sets to a boolean. *)
Definition succeeded (result : result_dict) : bool :=
  match PyDict.get "success" result with
  | Some (JBool b) => b
  | _ => false
  end.

(** [d.get(k)] *)
Definition get_or_none (k : string) (d : result_dict) : json :=
  PyDict.get_default k JNull d.

Definition memory_entry (ts task : string) (result : result_dict) : json :=
  JDict [("timestamp", JStr ts);
         ("task", JStr task);
         ("result", if succeeded result then get_or_none "result" result
                    else get_or_none "error" result);
         ("success", get_or_none "success" result)].

Definition history_entry (ts : string) (who : json) (task : string)
  (result : result_dict) : json :=
  JDict [("timestamp", JStr ts);
         ("agent", who);
         ("task", JStr task);
         ("result", JDict result)].

(** [agent.memory.append(entry)] on the agent object [invoke] looked up
    under [agent_name].  The registry maps the name to that same object
    when the coroutine resumes: only [add_agent] and [remove_agent] change
    the registry, and neither runs inside a coroutine. *)
Definition append_memory (agent_name : string) (entry : json)
  (st : SwarmState) : SwarmState :=
  match PyDict.get agent_name (agents st) with
  | Some a =>
      set_agents st
        (PyDict.set agent_name (set_memory a (memory a ++ [entry]))
           (agents st))
  | None => st
  end.

Definition append_history (entry : json) (st : SwarmState) : SwarmState :=
  set_history st (history st ++ [entry]).

Definition invoke (agent_name task : string) : coroutine Sys result_dict :=
  fun '(self, env) =>
    match PyDict.get agent_name (agents (state self)) with
    | None => ((self, env), Return (not_found agent_name))
    | Some agent =>
        let prompt := _build_prompt (state self) agent task in
        then_co (_invoke_claude prompt (allowed_tools agent) None)
          (fun result '(self1, env1) =>
             let '(ts, env2) := now env1 in
             let st2 :=
               append_memory agent_name (memory_entry ts task result)
                 (state self1) in
             let '(ts', env3) := now env2 in
             let st3 :=
               append_history
                 (history_entry ts' (JStr agent_name) task result) st2 in
             ((with_state self1 st3, env3),
              PyDict.update [("agent", JStr agent_name)] result))
          (self, env)
    end.

(** [Swarm.dispatch]: [assignments.items()] in the dictionary's order. *)
Definition dispatch (assignments : PyDict.t string) (order : list nat)
  (sys : Sys) : option (Sys * list result_dict) :=
  let tasks := map (fun '(nm, task) => invoke nm task) assignments in
  gather tasks order sys.

(** [Swarm.broadcast] *)
Definition broadcast (task : string) (order : list nat) (sys : Sys)
  : option (Sys * list result_dict) :=
  dispatch (map (fun nm => (nm, task)) (PyDict.keys (agents (state (fst sys)))))
    order sys.

(** [Swarm.run_prompt] *)
Definition run_prompt (prompt : string) (tools : option (list string))
  : coroutine Sys result_dict :=
  then_co (_invoke_claude prompt tools None)
    (fun result '(self1, env1) =>
       let '(ts, env2) := now env1 in
       let st2 :=
         append_history (history_entry ts JNull prompt result)
           (state self1) in
       ((with_state self1 st2, env2), result)).

(** [Swarm.list_agents] *)
Definition list_agents (self : Swarm) : list json :=
  map (fun '(_, a) =>
         JDict [("name", JStr (name a)); ("role", JStr (role a));
                ("memory_size", JInt (Z.of_nat (length (memory a))))])
    (agents (state self)).

(** ** Persistence

    The file system maps a file to its text.  A file is named by the
    resolved form of a path, so two paths that resolve alike name one
    file, and [save] and [load] resolve the path they are given, as the
    operating system does for [write_text], [exists] and [read_text].
    The record
    fields have the types the dataclasses declare, so a document whose
    field has another shape has no image here ([None]), as has one that
    makes the [Agent] constructor raise. *)

Definition to_dict (a : Agent) : json :=
  JDict [("name", JStr (name a));
         ("role", JStr (role a));
         ("system_prompt", JStr (system_prompt a));
         ("memory", JList (memory a));
         ("allowed_tools",
           match allowed_tools a with
           | None => JNull
           | Some ts => JList (map JStr ts)
           end)].

Definition as_str (v : json) : option string :=
  match v with JStr s => Some s | _ => None end.

Definition agent_fields : list string :=
  ["name"; "role"; "system_prompt"; "memory"; "allowed_tools"].

(** [Agent.from_dict]: the constructor called with the entries of [data]
    as keyword arguments. *)
Definition from_dict (data : json) : option Agent :=
  match data with
  | JDict d =>
      if forallb (fun k => bool_decide (k ∈ agent_fields)) (PyDict.keys d)
      then
        nm ← PyDict.get "name" d ≫= as_str;
        rl ← PyDict.get "role" d ≫= as_str;
        sp ← match PyDict.get "system_prompt" d with
             | None => Some EmptyString
             | Some v => as_str v
             end;
        mem ← match PyDict.get "memory" d with
              | None => Some []
              | Some (JList l) => Some l
              | Some _ => None
              end;
        tools ← match PyDict.get "allowed_tools" d with
                | None | Some JNull => Some None
                | Some (JList l) => Some <$> mapM as_str l
                | Some _ => None
                end;
        Some (mkAgent nm rl sp mem tools)
      else None
  | _ => None
  end.

Definition FileSystem : Type := gmap string string.

(** The dictionary [SwarmState.save] serializes. *)
Definition state_document (st : SwarmState) : json :=
  JDict [("agents", JDict (map (fun '(k, v) => (k, to_dict v)) (agents st)));
         ("shared_context", JDict (shared_context st));
         ("history", JList (last_n 100 (history st)))].

(** [SwarmState.save] *)
Definition save (st : SwarmState) (path : string) (fs : FileSystem)
  : FileSystem :=
  <[path_resolve path := json_dumps (state_document st)]> fs.

(** [SwarmState.load] *)
Definition load (path : string) (fs : FileSystem) : option SwarmState :=
  match fs !! path_resolve path with
  | None => Some empty_state
  | Some text =>
      data ← json_loads text;
      match data with
      | JDict d =>
          ags ← match PyDict.get_default "agents" (JDict []) d with
                | JDict items =>
                    mapM (fun '(k, v) => a ← from_dict v; Some (k, a)) items
                | _ => None
                end;
          ctx ← match PyDict.get_default "shared_context" (JDict []) d with
                | JDict c => Some c
                | _ => None
                end;
          hist ← match PyDict.get_default "history" (JList []) d with
                 | JList h => Some h
                 | _ => None
                 end;
          Some (mkSwarmState ags ctx hist)
      | _ => None
      end
  end.

End Orchestrator.

(** ** patterns.py *)

(** [sorted(results, key=lambda x: x["index"])].  [sorted] is stable, and all
    stable sorts return the same list: the keys are computed first, then the
    elements are inserted one by one, each before the first element whose
    key is not smaller. *)
Definition index_key (x : result_dict) : option Z :=
  match PyDict.get "index" x with
  | Some (JInt z) => Some z
  | _ => None
  end.

Fixpoint insert_by_key {A} (kx : Z * A) (l : list (Z * A)) : list (Z * A) :=
  match l with
  | [] => [kx]
  | ky :: l' =>
      if (fst kx <=? fst ky)%Z then kx :: l else ky :: insert_by_key kx l'
  end.

Definition sort_by_key {A} (l : list (Z * A)) : list (Z * A) :=
  foldr insert_by_key [] l.

Definition sorted_by_index (results : list result_dict)
  : option (list result_dict) :=
  keyed ← mapM (fun x => k ← index_key x; Some (k, x)) results;
  Some (map snd (sort_by_key keyed)).

Section Patterns.

Context {W : World}.

(** The inner [run_task] of [fan_out]. *)
Definition run_task (tools : option (list string)) (idx : nat)
  (task : string) : coroutine Sys result_dict :=
  then_co (run_prompt task tools)
    (fun result s =>
       (s, PyDict.update
             [("index", JInt (Z.of_nat idx)); ("task", JStr task)] result)).

(** [fan_out].  [None]: the call raises or never returns. *)
Definition fan_out (tasks : list string) (dir : string) (max_conc : Z)
  (tools : option (list string)) (order : list nat) (env : Env)
  : option (Env * list result_dict) :=
  swarm ← new_swarm max_conc dir;
  '(sys, results) ← gather (imap (run_task tools) tasks) order (swarm, env);
  sorted ← sorted_by_index results;
  Some (snd sys, sorted).

(** The prompt [pipeline] issues for stage [i]. *)
Definition stage_prompt (i : nat) (stage : string)
  (results : list result_dict) : string :=
  match last results with
  | Some prev =>
      if (0 <? i)%nat then
        stage +:+ nl +:+ nl +:+ "## Previous Stage Output" +:+ nl +:+
        json_dumps (PyDict.get_default "result" (JStr EmptyString) prev)
      else stage
  | None => stage
  end.

(** The loop of [pipeline], from stage number [i] on. *)
Fixpoint pipeline_loop (tools : option (list string)) (i : nat)
  (stages : list string) (results : list result_dict) (sys : Sys)
  : option (Sys * list result_dict) :=
  match stages with
  | [] => Some (sys, results)
  | stage :: rest =>
      let prompt := stage_prompt i stage results in
      '(sys1, result) ← await_co (run_prompt prompt tools) sys;
      pipeline_loop tools (S i) rest
        (results ++
           [PyDict.update
              [("stage", JInt (Z.of_nat i)); ("prompt", JStr stage)] result])
        sys1
  end.

(** [pipeline] *)
Definition pipeline (stages : list string) (dir : string)
  (tools : option (list string)) (env : Env)
  : option (Env * PyDict.t json) :=
  swarm ← new_swarm 5 dir;
  '(sys, results) ← pipeline_loop tools 0 stages [] (swarm, env);
  Some (snd sys,
        [("stages", JList (map JDict results));
         ("final", match last results with
                   | Some r => JDict r
                   | None => JNull
                   end)]).

Definition plan_prompt (goal : string) (max_subtasks : Z) : string :=
  "You are a planning coordinator. Break this goal into " +:+
  pretty max_subtasks +:+
  " or fewer independent subtasks that can be executed in parallel." +:+
  nl +:+ nl +:+
  "Return ONLY a JSON array of task strings. No explanation, no markdown, just the JSON array." +:+
  nl +:+ nl +:+ "Goal: " +:+ goal.

Definition synth_prompt (goal : string) (worker_results : list result_dict)
  : string :=
  "You are a synthesis coordinator. Combine these worker results into a cohesive response." +:+
  nl +:+ nl +:+ "## Original Goal" +:+ nl +:+ goal +:+
  nl +:+ nl +:+ "## Subtask Results" +:+ nl +:+
  json_dumps (JList (map JDict worker_results)) +:+
  nl +:+ nl +:+
  "Provide a unified, coherent response that addresses the original goal.".

(** The [try] block of [hierarchical] that derives the subtasks from the
    planner's result. *)
Definition parse_subtasks (goal : string) (plan_result : result_dict)
  : list json :=
  let raw := PyDict.get_default "result" (JDict []) plan_result in
  let raw :=
    match raw with
    | JDict d => PyDict.get_default "result" (JStr "[]") d
    | _ => raw
    end in
  let subtasks :=
    match raw with
    | JStr text => json_loads text
    | _ => Some raw
    end in
  match subtasks with
  | Some (JList l) => l
  | Some _ => [JStr goal]
  | None => [JStr goal]
  end.

(** Phases 2 and 3 of [hierarchical].  A subtask that is not a string makes
    the process spawn raise [TypeError]. *)
Definition execute_and_synthesize (goal : string) (subtasks : list json)
  (dir : string) (max_conc : Z) (tools : option (list string))
  (order : list nat) (sys : Sys) : option (Env * PyDict.t json) :=
  tasks ← mapM as_str subtasks;
  '(env1, worker_results) ← fan_out tasks dir max_conc tools order (snd sys);
  '(sys2, synthesis) ←
    await_co (run_prompt (synth_prompt goal worker_results) None)
      (fst sys, env1);
  Some (snd sys2,
        [("goal", JStr goal);
         ("subtasks", JList subtasks);
         ("worker_results", JList (map JDict worker_results));
         ("synthesis", JDict synthesis)]).

(** [hierarchical] *)
Definition hierarchical (goal : string) (dir : string) (max_subtasks : Z)
  (max_conc : Z) (tools : option (list string)) (order : list nat)
  (env : Env) : option (Env * PyDict.t json) :=
  swarm ← new_swarm max_conc dir;
  '(sys1, plan_result) ←
    await_co (run_prompt (plan_prompt goal max_subtasks) None) (swarm, env);
  let subtasks := parse_subtasks goal plan_result in
  execute_and_synthesize goal subtasks dir max_conc tools order sys1.

End Patterns.

(** ** A model of the standard library's [json] module

    [dumps] is [json.dumps(., indent=2)] and [loads] is [json.loads], on
    values without floats and on text whose characters have codes below 256.
    They serve as the concrete world of the examples; the theorems hold for
    every world. *)

Module PyJson.

Definition dq : string := String "034" EmptyString.
Definition bs : string := String "092" EmptyString.

Definition hex_digit (n : nat) : ascii :=
  nth n (list_ascii_of_string "0123456789abcdef") "0"%char.

Definition escape_char (c : ascii) : string :=
  let n := nat_of_ascii c in
  if (n =? 34)%nat then bs +:+ dq
  else if (n =? 92)%nat then bs +:+ bs
  else if (n =? 10)%nat then bs +:+ "n"
  else if (n =? 13)%nat then bs +:+ "r"
  else if (n =? 9)%nat then bs +:+ "t"
  else if (n =? 8)%nat then bs +:+ "b"
  else if (n =? 12)%nat then bs +:+ "f"
  else if ((n <? 32) || (126 <? n))%nat then
    bs +:+ "u00" +:+
    String (hex_digit (n / 16)) (String (hex_digit (n mod 16)) EmptyString)
  else String c EmptyString.

Fixpoint escape (s : string) : string :=
  match s with
  | EmptyString => EmptyString
  | String c s' => escape_char c +:+ escape s'
  end.

Definition quote (s : string) : string := dq +:+ escape s +:+ dq.

Fixpoint indent (n : nat) : string :=
  match n with
  | O => EmptyString
  | S n' => "  " +:+ indent n'
  end.

Definition block (opening closing : string) (lvl : nat)
  (items : list string) : string :=
  opening +:+ nl +:+ indent (S lvl) +:+
  String.concat ("," +:+ nl +:+ indent (S lvl)) items +:+
  nl +:+ indent lvl +:+ closing.

Fixpoint dumps_at (lvl : nat) (v : json) : string :=
  match v with
  | JNull => "null"
  | JBool true => "true"
  | JBool false => "false"
  | JInt z => pretty z
  | JStr s => quote s
  | JList [] => "[]"
  | JList l => block "[" "]" lvl (map (dumps_at (S lvl)) l)
  | JDict [] => "{}"
  | JDict d =>
      block "{" "}" lvl
        (map (fun kv => quote (fst kv) +:+ ": " +:+ dumps_at (S lvl) (snd kv))
           d)
  end.

Definition dumps (v : json) : string := dumps_at 0 v.

(** The parser works on the list of characters. *)
Definition text : Type := list ascii.

Definition is_ws (c : ascii) : bool :=
  let n := nat_of_ascii c in
  ((n =? 32) || (n =? 9) || (n =? 10) || (n =? 13))%nat.

Fixpoint skip_ws (l : text) : text :=
  match l with
  | c :: l' => if is_ws c then skip_ws l' else l
  | [] => []
  end.

Definition digit_of (c : ascii) : option Z :=
  let n := nat_of_ascii c in
  if ((48 <=? n) && (n <=? 57))%nat then Some (Z.of_nat (n - 48)) else None.

Fixpoint digits (acc : Z) (l : text) : Z * text :=
  match l with
  | c :: l' =>
      match digit_of c with
      | Some d => digits (10 * acc + d) l'
      | None => (acc, l)
      end
  | [] => (acc, [])
  end.

(** An integer literal: [0] or a nonzero digit followed by digits.  A
    fraction or an exponent would make the number a float. *)
Definition natural (l : text) : option (Z * text) :=
  match l with
  | c :: l' =>
      match digit_of c with
      | Some 0%Z => Some (0%Z, l')
      | Some d => Some (digits d l')
      | None => None
      end
  | [] => None
  end.

Definition not_float (r : text) : bool :=
  match r with
  | c :: _ =>
      negb (Ascii.eqb c "." || Ascii.eqb c "e" || Ascii.eqb c "E")
  | [] => true
  end.

Definition number (l : text) : option (json * text) :=
  '(z, r) ← match l with
            | "-"%char :: l' => '(z, r) ← natural l'; Some ((- z)%Z, r)
            | _ => natural l
            end;
  if not_float r then Some (JInt z, r) else None.

Definition hex_of (c : ascii) : option nat :=
  let n := nat_of_ascii c in
  if ((48 <=? n) && (n <=? 57))%nat then Some (n - 48)
  else if ((97 <=? n) && (n <=? 102))%nat then Some (n - 87)
  else if ((65 <=? n) && (n <=? 70))%nat then Some (n - 55)
  else None.

(** The characters of a string literal after its opening quote. *)
Fixpoint string_body (fuel : nat) (l : text) (acc : string)
  : option (string * text) :=
  match fuel with
  | O => None
  | S f =>
      let put (c : ascii) (r : text) :=
        string_body f r (acc +:+ String c EmptyString) in
      match l with
      | [] => None
      | "034"%char :: r => Some (acc, r)
      | "092"%char :: e :: r =>
          if Ascii.eqb e "034" then put "034"%char r
          else if Ascii.eqb e "092" then put "092"%char r
          else if Ascii.eqb e "/" then put "/"%char r
          else if Ascii.eqb e "b" then put "008"%char r
          else if Ascii.eqb e "f" then put "012"%char r
          else if Ascii.eqb e "n" then put "010"%char r
          else if Ascii.eqb e "r" then put "013"%char r
          else if Ascii.eqb e "t" then put "009"%char r
          else if Ascii.eqb e "u" then
            match r with
            | a :: b :: c :: d :: r' =>
                a ← hex_of a; b ← hex_of b; c ← hex_of c; d ← hex_of d;
                let code := (((a * 16 + b) * 16 + c) * 16 + d)%nat in
                if (code <? 256)%nat then put (ascii_of_nat code) r'
                else None
            | _ => None
            end
          else None
      | c :: r => if (nat_of_ascii c <? 32)%nat then None else put c r
      end
  end.

Definition literal (word : string) (v : json) (l : text)
  : option (json * text) :=
  let w := list_ascii_of_string word in
  if bool_decide (take (length w) l = w) then Some (v, drop (length w) l)
  else None.

(** The elements of an array after the first, and the members of an
    object likewise, given the parser [value] of one value. *)
Fixpoint elements (value : text -> option (json * text)) (fuel : nat)
  (l : text) (acc : list json) : option (list json * text) :=
  match fuel with
  | O => None
  | S f =>
      '(v, r) ← value l;
      match skip_ws r with
      | ","%char :: r' => elements value f r' (acc ++ [v])
      | "]"%char :: r' => Some (acc ++ [v], r')
      | _ => None
      end
  end.

Fixpoint members (value : text -> option (json * text)) (fuel : nat)
  (l : text) (acc : PyDict.t json) : option (PyDict.t json * text) :=
  match fuel with
  | O => None
  | S f =>
      match skip_ws l with
      | "034"%char :: r =>
          '(k, r1) ← string_body (S (length r)) r EmptyString;
          match skip_ws r1 with
          | ":"%char :: r2 =>
              '(v, r3) ← value r2;
              match skip_ws r3 with
              | ","%char :: r4 => members value f r4 (PyDict.set k v acc)
              | "}"%char :: r4 => Some (PyDict.set k v acc, r4)
              | _ => None
              end
          | _ => None
          end
      | _ => None
      end
  end.

Fixpoint value (fuel : nat) (l : text) : option (json * text) :=
  match fuel with
  | O => None
  | S f =>
      match skip_ws l with
      | [] => None
      | c :: r =>
          if Ascii.eqb c "n" then literal "null" JNull (c :: r)
          else if Ascii.eqb c "t" then literal "true" (JBool true) (c :: r)
          else if Ascii.eqb c "f" then literal "false" (JBool false) (c :: r)
          else if Ascii.eqb c "034" then
            '(s, r') ← string_body (S (length r)) r EmptyString;
            Some (JStr s, r')
          else if Ascii.eqb c "[" then
            match skip_ws r with
            | "]"%char :: r' => Some (JList [], r')
            | _ => '(vs, r') ← elements (value f) f r []; Some (JList vs, r')
            end
          else if Ascii.eqb c "{" then
            match skip_ws r with
            | "}"%char :: r' => Some (JDict [], r')
            | _ => '(d, r') ← members (value f) f r []; Some (JDict d, r')
            end
          else number (c :: r)
      end
  end.

Definition loads (s : string) : option json :=
  let l := list_ascii_of_string s in
  '(v, r) ← value (S (length l)) l;
  match skip_ws r with
  | [] => Some v
  | _ => None
  end.

End PyJson.

(** The world of the examples: Python's [json], a scripted list of process
    outcomes (every later process prints an empty object and exits with 0),
    a clock that advances by one second per reading, and a current directory
    [/srv/project]. *)
Definition two_digits (n : nat) : string :=
  pretty (n / 10 mod 10)%nat +:+ pretty (n mod 10)%nat.

Definition resolve_under (base d : string) : string :=
  if String.eqb d "." then base
  else match d with
       | String "/" _ => d
       | String "." (String "/" rest) => base +:+ "/" +:+ rest
       | _ => base +:+ "/" +:+ d
       end.

Definition scripted (script : list Completed) : World := {|
  json_dumps := PyJson.dumps;
  json_loads := PyJson.loads;
  run_process := fun n _ _ =>
    nth n script (mkCompleted 0 "{}" EmptyString);
  isoformat_now := fun n => "2024-01-01T00:00:" +:+ two_digits n;
  path_resolve := resolve_under "/srv/project";
|}.

Definition exits (code : Z) (out err : string) : Completed :=
  mkCompleted code out err.

Definition no_env : Env := mkEnv [] 0.

(** ** patterns.py: [competitive] *)

Section Competitive.

Context {W : World}.

Definition personas : list string :=
  ["Focus on code clarity and readability.";
   "Focus on optimal performance and efficiency.";
   "Focus on robustness and edge case handling."].

(** The task given to competitor [i]. *)
Definition persona_task (task : string) (i : nat) : string :=
  task +:+ nl +:+ nl +:+ "Approach: " +:+
  nth (i mod length personas) personas EmptyString.

Definition judge_prompt (task : string) (num_agents : Z)
  (solutions : list result_dict) : string :=
  "You are a judge evaluating " +:+ pretty num_agents +:+
  " solutions to this task:" +:+
  nl +:+ nl +:+ "## Task" +:+ nl +:+ task +:+
  nl +:+ nl +:+ "## Solutions" +:+ nl +:+
  json_dumps (JList (map JDict solutions)) +:+
  nl +:+ nl +:+
  "Evaluate each solution and select the best one. Explain your reasoning briefly, then output which solution index (0-" +:+
  pretty (num_agents - 1)%Z +:+ ") is best.".

(** [competitive]; [range(num_agents)] is empty for a count below one. *)
Definition competitive (task : string) (num_agents : Z) (dir : string)
  (tools : option (list string)) (order : list nat) (env : Env)
  : option (Env * PyDict.t json) :=
  swarm ← new_swarm num_agents dir;
  let tasks := map (persona_task task) (seq 0 (Z.to_nat num_agents)) in
  '(env1, solutions) ← fan_out tasks dir num_agents tools order env;
  '(sys2, judgment) ←
    await_co (run_prompt (judge_prompt task num_agents solutions) None)
      (swarm, env1);
  Some (snd sys2,
        [("task", JStr task);
         ("solutions", JList (map JDict solutions));
         ("judgment", JDict judgment)]).

End Competitive.

(** ** cli.py: tool selection and the [dispatch] action *)

Module Cli.

Definition TOOL_PROFILES : PyDict.t (list string) :=
  [("all", ["Read"; "Write"; "Edit"; "Glob"; "Grep";
            "Bash"; "WebSearch"; "WebFetch"; "AskUserQuestion";
            "TodoWrite"; "Task"; "NotebookEdit"]);
   ("build", ["Read"; "Write"; "Edit"; "Glob"; "Grep"; "Bash";
              "AskUserQuestion"]);
   ("research", ["Read"; "Glob"; "Grep"; "WebSearch"; "WebFetch"]);
   ("code", ["Read"; "Write"; "Edit"; "Glob"; "Grep"; "Bash"]);
   ("readonly", ["Read"; "Glob"; "Grep"])].

(** What a function that may call [sys.exit] does. *)
Inductive exit_or (A : Type) : Type :=
| Exits (code : Z)
| Returns (a : A).
Arguments Exits {A} code.
Arguments Returns {A} a.

(** [str.lower()].  Among the code points below 256 the upper-case letters
    are 65 to 90, 192 to 214 and 216 to 222; each has its lower-case form 32
    places on. *)
Definition lower_char (c : ascii) : ascii :=
  let n := nat_of_ascii c in
  if (((65 <=? n) && (n <=? 90)) || ((192 <=? n) && (n <=? 214))
      || ((216 <=? n) && (n <=? 222)))%nat
  then ascii_of_nat (n + 32) else c.

Fixpoint lower (s : string) : string :=
  match s with
  | EmptyString => EmptyString
  | String c s' => String (lower_char c) (lower s')
  end.

(** [TOOL_PROFILES[k]] for a key that is present. *)
Definition profile_tools (k : string) : list string :=
  PyDict.get_default k [] TOOL_PROFILES.

(** The loop over [--allowed-tools]. *)
Fixpoint expand_allowed (allowed : list string) (tools : list string)
  : list string :=
  match allowed with
  | [] => tools
  | tool :: rest =>
      let tools :=
        if String.eqb (lower tool) "all" then tools ++ profile_tools "all"
        else if PyDict.contains tool TOOL_PROFILES
             then tools ++ profile_tools tool
             else tools ++ [tool] in
      expand_allowed rest tools
  end.

(** The loop that removes duplicates: [seen] is the set of tools met so
    far, and a tool is appended to [unique] when it is met first. *)
Fixpoint unique_from (seen : gset string) (tools : list string)
  : list string :=
  match tools with
  | [] => []
  | t :: rest =>
      if decide (t ∈ seen) then unique_from seen rest
      else t :: unique_from ({[ t ]} ∪ seen) rest
  end.

(** [resolve_tools], on the two attributes it reads from [args]. *)
Definition resolve_tools (profile : option string)
  (allowed : option (list string)) : exit_or (option (list string)) :=
  let tools := [] in
  match
    match profile with
    | Some p =>
        if str_truthy p then
          if PyDict.contains p TOOL_PROFILES
          then Returns (tools ++ profile_tools p)
          else Exits 1
        else Returns tools
    | None => Returns tools
    end
  with
  | Exits code => Exits code
  | Returns tools =>
      let tools :=
        match allowed with
        | Some (a :: rest) => expand_allowed (a :: rest) tools
        | _ => tools
        end in
      if list_truthy tools then Returns (Some (unique_from ∅ tools))
      else Returns None
  end.

(** [pair.split(":", 1)] unpacked into two names: [None] when there is no
    colon and the unpacking raises [ValueError]. *)
Fixpoint split_once (s : string) : option (string * string) :=
  match s with
  | EmptyString => None
  | String c s' =>
      if Ascii.eqb c ":" then Some (EmptyString, s')
      else match split_once s' with
           | Some (a, b) => Some (String c a, b)
           | None => None
           end
  end.

(** The loop of the [dispatch] action that builds the assignments. *)
Fixpoint parse_assignments (pairs : list string) (assignments : PyDict.t string)
  : option (PyDict.t string) :=
  match pairs with
  | [] => Some assignments
  | entry :: rest =>
      match split_once entry with
      | Some (agent, task) =>
          parse_assignments rest (PyDict.set agent task assignments)
      | None => None
      end
  end.

End Cli.

(** ** Vocabulary of the statements *)

(** A block that is present only under a condition. *)
Definition when (b : bool) (s : string) : list string :=
  if b then [s] else [].

(** The separator of the blocks: a blank line. *)
Definition blank_line : string := nl +:+ nl.

(** A started coroutine [st] is bound to return [r]: it has returned it, or
    it returns it when resumed, in whatever state that happens. *)
Definition yields {S R} (st : step S R) (r : R) : Prop :=
  match st with
  | Return r' => r' = r
  | Await k => forall s, snd (k s) = r
  | Hang => False
  end.

(** The positions of [gather] while children complete: each holds the value
    its child returns, or is still empty and its child is suspended. *)
Definition slots_sound {S R} (steps : list (step S R))
  (slots : list (option R)) (rs : list R) : Prop :=
  length slots = length rs /\
  forall i st r, steps !! i = Some st -> rs !! i = Some r ->
    slots !! i = Some (Some r) \/
    (slots !! i = Some None /\ exists k, st = Await k).

(** Every position below [n] occurs in the completion order. *)
Definition completes (n : nat) (order : list nat) : Prop :=
  Forall (fun i => i ∈ order) (seq 0 n).

(** What [fan_out] returns at position [i] for task [task], when [first]
    processes were spawned before the call: the index and the task in front
    of what the invoker returns for the process with number [first + i]. *)
Definition fan_out_entry {W : World} (dir : string)
  (tools : option (list string)) (first i : nat) (task : string)
  : result_dict :=
  ("index", JInt (Z.of_nat i)) :: ("task", JStr task) ::
  process_result
    (run_process (first + i)
       (["claude"; "-p"; task; "--output-format"; "json"] ++
        match tools with
        | Some (t :: ts) => ["--allowedTools"; String.concat "," (t :: ts)]
        | _ => []
        end)
       dir).

(** The results of [dispatch], told entry by entry in the order of the
    assignments, when [first] processes were spawned before the call: an
    unregistered name gets the not-found failure; a registered one gets its
    name in front of what the invoker returns for the next process, run on
    the prompt built from the state at the time of the call. *)
Fixpoint dispatch_entries {W : World} (self : Swarm) (first : nat)
  (assignments : PyDict.t string) : list result_dict :=
  match assignments with
  | [] => []
  | (nm, task) :: rest =>
      match PyDict.get nm (agents (state self)) with
      | None =>
          [("success", JBool false);
           ("error", JStr ("Agent '" +:+ nm +:+ "' not found"))]
          :: dispatch_entries self first rest
      | Some agent =>
          (("agent", JStr nm) ::
           process_result
             (run_process first
                (command_line self (_build_prompt (state self) agent task)
                   (allowed_tools agent))
                (cwd self)))
          :: dispatch_entries self (S first) rest
      end
  end.

(** The prompt of stage [i], told from the list of all stage results: the
    first stage gets its text; a later one gets its text, a blank line, the
    label and the serialized [result] entry of the stage before it, the empty
    string standing in when that stage has no such entry. *)
Definition issued_prompt {W : World} (i : nat) (stage : string)
  (results : list result_dict) : string :=
  match i with
  | O => stage
  | S j =>
      match results !! j with
      | Some prev =>
          stage +:+ blank_line +:+ "## Previous Stage Output" +:+ nl +:+
          json_dumps (PyDict.get_default "result" (JStr EmptyString) prev)
      | None => stage
      end
  end.

(** The planner's payload as [hierarchical] reads it: the [result] entry of
    the invoker's result, and when that is an object, its own [result] entry.
    [None]: there is no such entry. *)
Definition plan_payload (plan_result : result_dict) : option json :=
  match PyDict.get "result" plan_result with
  | None => None
  | Some (JDict d) => PyDict.get "result" d
  | Some v => Some v
  end.

(** The payload as structured data: text is parsed, [None] when it does not
    parse; any other value stands for itself. *)
Definition parsed_plan {W : World} (payload : json) : option json :=
  match payload with
  | JStr text => json_loads text
  | v => Some v
  end.

Definition is_list (v : json) : bool :=
  match v with JList _ => true | _ => false end.

(** A started coroutine keeps a property of the system: if it holds when
    the coroutine is resumed, it holds when the coroutine has finished. *)
Definition keeps {S R} (Q : S -> Prop) (st : step S R) : Prop :=
  match st with
  | Await k => forall s, Q s -> Q (fst (k s))
  | _ => True
  end.

(** An agent that differs from an earlier one by records appended to its
    memory, and a state that differs from an earlier one by records appended
    to the memories and to the history. *)
Definition agent_extends (a a' : Agent) : Prop :=
  name a' = name a /\ role a' = role a /\
  system_prompt a' = system_prompt a /\
  allowed_tools a' = allowed_tools a /\
  memory a `prefix_of` memory a'.

Definition extends (st st' : SwarmState) : Prop :=
  PyDict.keys (agents st') = PyDict.keys (agents st)
  /\ shared_context st' = shared_context st
  /\ history st `prefix_of` history st'
  /\ forall nm a, PyDict.get nm (agents st) = Some a ->
       exists a', PyDict.get nm (agents st') = Some a' /\ agent_extends a a'.

(** What one word of [--allowed-tools] selects: every known tool for
    [all] in any case, the tools of a profile for its name, and the word
    itself otherwise. *)
Definition selects (word tool : string) : Prop :=
  if String.eqb (Cli.lower word) "all" then tool ∈ Cli.profile_tools "all"
  else if PyDict.contains word Cli.TOOL_PROFILES
       then tool ∈ Cli.profile_tools word
       else tool = word.

(** The characters of a string. *)
Definition chars (s : string) : list ascii := list_ascii_of_string s.

(** The inputs of the examples. *)
Definition reviewer : Agent :=
  mkAgent "security" "security engineer" "Be strict." [] (Some ["Read"; "Grep"]).

Definition veteran : Agent := set_memory reviewer [JStr "seen it all"].

Definition veteran_swarm : Swarm :=
  mkSwarm (mkSwarmState [("security", veteran)] [] []) 5 "/srv/project" "json".

Definition sample_swarm : Swarm :=
  mkSwarm (mkSwarmState [("security", reviewer)] [("target", JStr "auth.py")] [])
    5 "/srv/project" "json".

(** * Properties *)

(** ** Strings, slices and dictionaries *)

Lemma str_app_cons (x : ascii) (a b : string) :
  String x a +:+ b = String x (a +:+ b).
Proof. reflexivity. Qed.

Lemma str_app_assoc (a b c : string) : (a +:+ b) +:+ c = a +:+ b +:+ c.
Proof.
  induction a as [|x a IH]; [reflexivity|].
  rewrite !str_app_cons. f_equal. exact IH.
Qed.

Lemma str_app_empty_r (a : string) : a +:+ EmptyString = a.
Proof.
  induction a as [|x a IH]; [reflexivity|].
  rewrite str_app_cons. f_equal. exact IH.
Qed.

Lemma concat_cons_cons (sep p q : string) (r : list string) :
  String.concat sep (p :: q :: r) = p +:+ sep +:+ String.concat sep (q :: r).
Proof. reflexivity. Qed.

(** Joining blocks whose last one is [x]: every earlier block is followed by
    the separator, and [x] ends the text. *)
Lemma concat_snoc (sep x : string) (l : list string) :
  String.concat sep (l ++ [x]) =
  String.concat EmptyString (map (fun p => p +:+ sep) l) +:+ x.
Proof.
  induction l as [|p l IH]; [reflexivity|].
  destruct l as [|q l].
  - cbn [app map]. rewrite concat_cons_cons.
    change (String.concat sep [x]) with x.
    change (String.concat EmptyString [p +:+ sep]) with (p +:+ sep).
    now rewrite str_app_assoc.
  - change ((p :: q :: l) ++ [x]) with (p :: q :: (l ++ [x])).
    rewrite concat_cons_cons.
    change (q :: (l ++ [x])) with ((q :: l) ++ [x]). rewrite IH.
    cbn [map]. rewrite concat_cons_cons.
    change (EmptyString +:+ ?u) with u.
    now rewrite !str_app_assoc.
Qed.

Lemma last_n_suffix {A} (n : nat) (l : list A) :
  l = take (length l - n) l ++ last_n n l.
Proof. unfold last_n. now rewrite take_drop. Qed.

Lemma last_n_length {A} (n : nat) (l : list A) :
  length (last_n n l) = Nat.min n (length l).
Proof. unfold last_n. rewrite length_drop. lia. Qed.

Lemma last_n_short {A} (n : nat) (l : list A) :
  length l <= n -> last_n n l = l.
Proof. intros H. unfold last_n. now replace (length l - n) with 0 by lia. Qed.

(** ** C1: prompt assembly *)

Section PromptProperties.

Context {W : World}.

(** C1.  The prompt is the join, with blank lines, of the identity line
    (if the role is set), the system prompt (if set), the Shared Context
    block (if the context is non-empty), the memory block (if the memory
    is non-empty) and the Task block, in this order: each earlier block is
    followed by a blank line and the Task block ends the prompt.  The
    memory block serializes [recent], the longest suffix of the memory with
    at most 5 entries, in the memory's own order. *)
Theorem build_prompt_contract (st : SwarmState) (agent : Agent)
  (task : string) :
  let recent := last_n 5 (memory agent) in
  let before :=
    when (str_truthy (role agent))
      ("You are " +:+ name agent +:+ ", a " +:+ role agent +:+ ".") ++
    when (str_truthy (system_prompt agent)) (system_prompt agent) ++
    when (list_truthy (shared_context st))
      (nl +:+ "## Shared Context" +:+ nl +:+
       json_dumps (JDict (shared_context st))) ++
    when (list_truthy (memory agent))
      (nl +:+ "## Your Recent Memory" +:+ nl +:+ json_dumps (JList recent))
  in
  _build_prompt st agent task =
    String.concat blank_line (before ++ [nl +:+ "## Task" +:+ nl +:+ task])
  /\ _build_prompt st agent task =
       String.concat EmptyString (map (fun p => p +:+ blank_line) before)
       +:+ nl +:+ "## Task" +:+ nl +:+ task
  /\ (exists older, memory agent = older ++ recent)
  /\ length recent = Nat.min 5 (length (memory agent)).
Proof.
  intros recent before.
  assert (E : _build_prompt st agent task =
              String.concat blank_line
                (before ++ [nl +:+ "## Task" +:+ nl +:+ task])).
  { unfold _build_prompt, before, recent, when, blank_line, identity_line,
      context_block, memory_block, task_block.
    destruct (str_truthy (role agent)), (str_truthy (system_prompt agent)),
      (list_truthy (shared_context st)), (list_truthy (memory agent));
      reflexivity. }
  split; [exact E|]. split.
  - rewrite E. apply concat_snoc.
  - split.
    + exists (take (length (memory agent) - 5) (memory agent)).
      apply last_n_suffix.
    + apply last_n_length.
Qed.

End PromptProperties.

(** ** Dictionaries *)

Module PyDictFacts.

Import PyDict.

Lemma get_set_eq {V} (k : string) (v : V) (d : t V) :
  get k (set k v d) = Some v.
Proof.
  induction d as [|[k' v'] d IH]; simpl.
  - now rewrite String.eqb_refl.
  - destruct (String.eqb k k') eqn:E; simpl.
    + now rewrite String.eqb_refl.
    + now rewrite E.
Qed.

Lemma get_set_ne {V} (k k' : string) (v : V) (d : t V) :
  k' <> k -> get k' (set k v d) = get k' d.
Proof.
  intros Hne. induction d as [|[k0 v0] d IH]; simpl.
  - destruct (String.eqb k' k) eqn:E; [|reflexivity].
    apply String.eqb_eq in E. contradiction.
  - destruct (String.eqb k k0) eqn:E; simpl.
    + apply String.eqb_eq in E. subst k0.
      destruct (String.eqb k' k) eqn:E'; [|reflexivity].
      apply String.eqb_eq in E'. contradiction.
    + now rewrite IH.
Qed.

(** Writing under a key that is present keeps the keys and their order. *)
Lemma keys_set_present {V} (k : string) (v : V) (d : t V) :
  contains k d = true -> keys (set k v d) = keys d.
Proof.
  unfold contains, keys. induction d as [|[k0 v0] d IH]; simpl.
  - discriminate.
  - destruct (String.eqb k k0) eqn:E; simpl.
    + apply String.eqb_eq in E. now subst.
    + intros H. now rewrite IH.
Qed.

Lemma contains_get {V} (k : string) (d : t V) :
  contains k d = false <-> get k d = None.
Proof. unfold contains. destruct (get k d); split; congruence. Qed.

End PyDictFacts.

(** ** The process invoker and [invoke] *)

Section InvokeProperties.

Context {W : World}.

(** The three shapes of the invoker's result carry none of the keys the
    callers add in front. *)
Lemma update_tag_process_result (k : string) (v : json) (proc : Completed) :
  k <> "success" -> k <> "result" -> k <> "error" -> k <> "returncode" ->
  PyDict.update [(k, v)] (process_result proc) = (k, v) :: process_result proc.
Proof.
  intros H1 H2 H3 H4.
  apply String.eqb_neq in H1, H2, H3, H4.
  rewrite String.eqb_sym in H1. rewrite String.eqb_sym in H2.
  rewrite String.eqb_sym in H3. rewrite String.eqb_sym in H4.
  unfold process_result.
  destruct (negb (returncode proc =? 0)%Z);
    [|destruct (json_loads (stdout proc))];
    unfold PyDict.update; cbn [fold_left fst snd];
    repeat (cbn [PyDict.set]; rewrite ?H1, ?H2, ?H3, ?H4; simpl String.eqb; cbv iota);
    reflexivity.
Qed.

Lemma update_tags_process_result (k1 k2 : string) (v1 v2 : json)
  (proc : Completed) :
  k1 <> "success" -> k1 <> "result" -> k1 <> "error" -> k1 <> "returncode" ->
  k2 <> "success" -> k2 <> "result" -> k2 <> "error" -> k2 <> "returncode" ->
  PyDict.update [(k1, v1); (k2, v2)] (process_result proc) =
  (k1, v1) :: (k2, v2) :: process_result proc.
Proof.
  intros H1 H2 H3 H4 G1 G2 G3 G4.
  apply String.eqb_neq in H1, H2, H3, H4, G1, G2, G3, G4.
  rewrite String.eqb_sym in H1. rewrite String.eqb_sym in H2.
  rewrite String.eqb_sym in H3. rewrite String.eqb_sym in H4.
  rewrite String.eqb_sym in G1. rewrite String.eqb_sym in G2.
  rewrite String.eqb_sym in G3. rewrite String.eqb_sym in G4.
  unfold process_result.
  destruct (negb (returncode proc =? 0)%Z);
    [|destruct (json_loads (stdout proc))];
    unfold PyDict.update; cbn [fold_left fst snd];
    repeat (cbn [PyDict.set];
            rewrite ?H1, ?H2, ?H3, ?H4, ?G1, ?G2, ?G3, ?G4;
            simpl String.eqb; cbv iota);
    reflexivity.
Qed.

Lemma succeeded_process_result (proc : Completed) :
  succeeded (process_result proc) = (returncode proc =? 0)%Z.
Proof.
  unfold process_result.
  destruct (returncode proc =? 0)%Z; simpl;
    [destruct (json_loads (stdout proc))|]; reflexivity.
Qed.

(** C9.  Invoking a name that is not in the registry returns the
    not-found failure at once and leaves the whole system as it was: the
    registry, every agent's memory, the shared context and the history are
    those of before, no process is spawned and the clock is not read. *)
Theorem invoke_unregistered_unchanged (self : Swarm) (env : Env)
  (agent_name task : string) :
  PyDict.contains agent_name (agents (state self)) = false ->
  await_co (invoke agent_name task) (self, env) =
    Some ((self, env),
          [("success", JBool false);
           ("error", JStr ("Agent '" +:+ agent_name +:+ "' not found"))]).
Proof.
  intros H. apply PyDictFacts.contains_get in H.
  unfold await_co, invoke. now rewrite H.
Qed.

(** C10.  Registering a name that is already in the registry puts a newly
    built agent with empty memory under that name, whatever the memory of
    the agent it replaces; the name keeps its place and the other agents
    are untouched. *)
Theorem add_agent_discards_memory (self : Swarm) (nm rl sp : string)
  (tools : option (list string)) (old : Agent) :
  PyDict.get nm (agents (state self)) = Some old ->
  let self' := fst (add_agent self nm rl sp tools) in
  let agent := snd (add_agent self nm rl sp tools) in
  agent = mkAgent nm rl sp [] tools
  /\ PyDict.get nm (agents (state self')) = Some agent
  /\ memory agent = []
  /\ PyDict.keys (agents (state self')) = PyDict.keys (agents (state self))
  /\ (forall other, other <> nm ->
        PyDict.get other (agents (state self')) =
        PyDict.get other (agents (state self)))
  /\ shared_context (state self') = shared_context (state self)
  /\ history (state self') = history (state self).
Proof.
  intros H. cbn.
  repeat split.
  - apply PyDictFacts.get_set_eq.
  - apply PyDictFacts.keys_set_present. unfold PyDict.contains. now rewrite H.
  - intros other Hne. now apply PyDictFacts.get_set_ne.
Qed.




End InvokeProperties.

(** ** The event loop *)

Section GatherProperties.

Context {S R : Type}.
Implicit Types (steps : list (step S R)) (rs : list R)
  (slots : list (option R)).

Lemma start_all_length (cs : list (coroutine S R)) (s : S) :
  length (snd (start_all cs s)) = length cs.
Proof.
  revert s. induction cs as [|c cs IH]; intros s; [reflexivity|].
  simpl. destruct (c s) as [s1 st].
  specialize (IH s1). destruct (start_all cs s1) as [s2 sts].
  simpl in *. now rewrite IH.
Qed.

Lemma slots_initial steps rs :
  Forall2 yields steps rs -> slots_sound steps (map slot_of steps) rs.
Proof.
  intros Hy. split.
  - rewrite length_map. eauto using Forall2_length.
  - intros i st r Hst Hr.
    pose proof (Forall2_lookup_lr _ _ _ _ _ _ Hy Hst Hr) as Hyr.
    rewrite list_lookup_fmap, Hst. simpl.
    destruct st as [r0|k|]; simpl in *.
    + left. now subst.
    + right. eauto.
    + contradiction.
Qed.

(** Resuming position [i] keeps the slots sound, keeps filled slots, and
    fills slot [i]. *)
Lemma resume_sound steps rs (acc : S * list (option R)) (i : nat) :
  Forall2 yields steps rs ->
  slots_sound steps (snd acc) rs ->
  slots_sound steps (snd (resume steps acc i)) rs
  /\ (forall j r, snd acc !! j = Some (Some r) ->
        snd (resume steps acc i) !! j = Some (Some r))
  /\ (forall r, rs !! i = Some r ->
        snd (resume steps acc i) !! i = Some (Some r)).
Proof.
  intros Hy [Hlen Hs]. destruct acc as [s slots]. simpl in *.
  assert (Hlen' : length steps = length rs) by eauto using Forall2_length.
  assert (Hidle :
    slots_sound steps slots rs
    /\ (forall j r, slots !! j = Some (Some r) -> slots !! j = Some (Some r))
    /\ (forall r, rs !! i = Some r -> slots !! i <> Some None ->
          slots !! i = Some (Some r))).
  { split; [split; assumption|]. split; [auto|].
    intros r Hr Hne.
    destruct (lookup_lt_is_Some_2 steps i) as [st Hst].
    { apply lookup_lt_Some in Hr. lia. }
    destruct (Hs i st r Hst Hr) as [H|[H _]]; [exact H | contradiction]. }
  destruct Hidle as (Hi1 & Hi2 & Hi3).
  unfold resume. simpl.
  destruct (steps !! i) as [st|] eqn:Hst.
  2:{ split; [exact Hi1|]. split; [exact Hi2|].
      intros r Hr. apply lookup_lt_Some in Hr.
      apply lookup_ge_None_1 in Hst. lia. }
  destruct st as [r0|k|].
  1,3: (split; [exact Hi1|]; split; [exact Hi2|]; intros r Hr;
        destruct (Hs i _ r Hst Hr) as [H|[_ [k Hk]]];
        [exact H | discriminate]).
  destruct (slots !! i) as [[x|]|] eqn:Hslot.
  1,3: (split; [exact Hi1|]; split; [exact Hi2|]; intros r Hr; simpl;
        rewrite Hslot; apply Hi3; [exact Hr | congruence]).
  destruct (k s) as [s' r'] eqn:Hk. simpl.
  assert (Hi : i < length slots) by (eapply lookup_lt_Some; eauto).
  assert (Hr' : rs !! i = Some r').
  { destruct (lookup_lt_is_Some_2 rs i) as [r Hr]; [lia|].
    pose proof (Forall2_lookup_lr _ _ _ _ _ _ Hy Hst Hr) as Hyr.
    simpl in Hyr. specialize (Hyr s). rewrite Hk in Hyr. simpl in Hyr.
    now subst. }
  split; [split|split].
  - now rewrite length_insert.
  - intros j st r Hj Hr.
    destruct (decide (i = j)) as [->|Hne].
    + left. rewrite list_lookup_insert_eq by exact Hi. congruence.
    + rewrite list_lookup_insert_ne by exact Hne. eauto.
  - intros j r Hj.
    destruct (decide (i = j)) as [->|Hne]; [congruence|].
    now rewrite list_lookup_insert_ne.
  - intros r Hr. rewrite list_lookup_insert_eq by exact Hi. congruence.
Qed.

Lemma resume_all_sound steps rs (order : list nat) :
  Forall2 yields steps rs ->
  forall acc, slots_sound steps (snd acc) rs ->
    slots_sound steps (snd (fold_left (resume steps) order acc)) rs
    /\ (forall j r, snd acc !! j = Some (Some r) ->
          snd (fold_left (resume steps) order acc) !! j = Some (Some r))
    /\ (forall i r, i ∈ order -> rs !! i = Some r ->
          snd (fold_left (resume steps) order acc) !! i = Some (Some r)).
Proof.
  intros Hy. induction order as [|i order IH]; intros acc Hacc; simpl.
  - split; [exact Hacc|]. split; [auto|].
    intros i r Hin. inversion Hin.
  - destruct (resume_sound steps rs acc i Hy Hacc) as (H1 & H2 & H3).
    destruct (IH _ H1) as (IH1 & IH2 & IH3).
    split; [exact IH1|]. split; [auto|].
    intros j r Hin Hr. apply elem_of_cons in Hin as [->|Hin]; eauto.
Qed.

(** [gather] returns the values of its children in argument order, whatever
    the order in which they complete, provided every child completes. *)
Lemma gather_returns (cs : list (coroutine S R)) (order : list nat) (s : S)
  rs :
  Forall2 yields (snd (start_all cs s)) rs ->
  completes (length cs) order ->
  exists s', gather cs order s = Some (s', rs).
Proof.
  intros Hy Hall. unfold gather.
  unfold completes in Hall. rewrite Forall_forall in Hall.
  pose proof (start_all_length cs s) as Hlen.
  destruct (start_all cs s) as [s1 steps]. simpl in *.
  destruct (resume_all_sound steps rs order Hy (s1, map slot_of steps)
              (slots_initial _ _ Hy)) as ([Hl Hs] & _ & Hfill).
  destruct (fold_left (resume steps) order (s1, map slot_of steps))
    as [s2 slots]. simpl in *.
  assert (Hrs : length steps = length rs) by eauto using Forall2_length.
  assert (E : slots = map Some rs).
  { apply list_eq. intros i. rewrite list_lookup_fmap.
    destruct (rs !! i) as [r|] eqn:Hr; simpl.
    - apply Hfill; [|exact Hr]. apply Hall.
      apply lookup_lt_Some in Hr. apply elem_of_seq. lia.
    - apply lookup_ge_None_2. apply lookup_ge_None_1 in Hr. lia. }
  subst slots. exists s2.
  assert (M : mapM id (map Some rs) = Some rs).
  { apply mapM_Some_2. clear. induction rs; constructor; auto. }
  now rewrite M.
Qed.

End GatherProperties.

(** ** C3: [fan_out] *)

Section SortProperties.

Context {A : Type}.

(** Elements whose keys already ascend are left in place. *)
Lemma sort_by_key_ascending (l : list A) (k : Z) :
  sort_by_key (imap (fun i x => ((k + Z.of_nat i)%Z, x)) l) =
  imap (fun i x => ((k + Z.of_nat i)%Z, x)) l.
Proof.
  revert k. induction l as [|x l IH]; intros k; [reflexivity|].
  rewrite imap_cons.
  assert (E : imap ((fun i y => ((k + Z.of_nat i)%Z, y)) ∘ S) l =
              imap (fun i y => ((k + 1 + Z.of_nat i)%Z, y)) l).
  { apply imap_ext. intros i y _. simpl. f_equal. lia. }
  rewrite E. unfold sort_by_key in *. cbn [foldr]. rewrite IH.
  destruct l as [|y l]; [reflexivity|].
  rewrite imap_cons. cbn [insert_by_key fst].
  destruct (Z.leb_spec (k + Z.of_nat 0) (k + 1 + Z.of_nat 0)); [reflexivity|lia].
Qed.

Lemma map_snd_imap_pair {B} (f : nat -> B) (l : list A) :
  map snd (imap (fun i x => (f i, x)) l) = l.
Proof.
  revert f. induction l as [|x l IH]; intros f; [reflexivity|].
  rewrite imap_cons. simpl. f_equal. apply (IH (f ∘ S)).
Qed.

End SortProperties.

Lemma sorted_by_index_ascending (rs : list result_dict) :
  (forall i r, rs !! i = Some r -> index_key r = Some (Z.of_nat i)) ->
  sorted_by_index rs = Some rs.
Proof.
  intros Hk. unfold sorted_by_index.
  assert (M : mapM (fun x => k ← index_key x; Some (k, x)) rs =
              Some (imap (fun i x => ((0 + Z.of_nat i)%Z, x)) rs)).
  { apply mapM_Some_2. apply Forall2_same_length_lookup_2.
    - now rewrite length_imap.
    - intros i x y Hx Hy. rewrite list_lookup_imap, Hx in Hy. simpl in Hy.
      injection Hy as <-. rewrite (Hk i x Hx). reflexivity. }
  rewrite M. simpl. rewrite sort_by_key_ascending.
  now rewrite map_snd_imap_pair.
Qed.

Section FanOutProperties.

Context {W : World}.

Lemma index_key_entry dir tools first i task :
  index_key (fan_out_entry dir tools first i task) = Some (Z.of_nat i).
Proof. reflexivity. Qed.

Lemma command_line_json (self : Swarm) (prompt : string)
  (tools : option (list string)) :
  output_format self = "json" ->
  command_line self prompt tools =
    ["claude"; "-p"; prompt; "--output-format"; "json"] ++
    match tools with
    | Some (t :: ts) => ["--allowedTools"; String.concat "," (t :: ts)]
    | _ => []
    end.
Proof.
  intros E. unfold command_line. rewrite E.
  destruct tools as [[|t ts]|]; reflexivity.
Qed.

(** Starting the children of [fan_out]: each spawns its process, in
    argument order, and is bound to return its entry. *)
Lemma start_all_run_task (tools : option (list string))
  (tasks : list string) (self : Swarm) :
  (1 <= max_concurrent self)%Z ->
  output_format self = "json" ->
  forall (k : nat) (env : Env),
    k <= length (spawned env) ->
    Forall2 yields
      (snd (start_all (imap (fun i => run_task tools (k + i)) tasks)
              (self, env)))
      (imap (fun i =>
               fan_out_entry (cwd self) tools (length (spawned env) - k)
                 (k + i))
         tasks).
Proof.
  intros Hmax Hfmt.
  assert (Hlt : (max_concurrent self <? 1)%Z = false) by lia.
  induction tasks as [|task tasks IH]; intros k env Hk; [constructor|].
  rewrite !imap_cons. cbn [start_all].
  unfold run_task at 1, then_co, run_prompt, then_co, _invoke_claude.
  rewrite Hlt. cbn [fst snd].
  set (env1 := mkEnv _ (ticks env)).
  assert (E1 : imap ((fun i => run_task tools (k + i)) ∘ S) tasks =
               imap (fun i => run_task tools (S k + i)) tasks).
  { apply imap_ext. intros i y _. simpl. f_equal. lia. }
  rewrite E1.
  specialize (IH (S k) env1).
  destruct (start_all (imap (fun i => run_task tools (S k + i)) tasks)
              (self, env1)) as [s2 sts] eqn:Hs.
  cbn [snd]. constructor.
  - cbn [yields]. intros [self' env']. cbn [now fst snd].
    rewrite update_tags_process_result by discriminate.
    unfold fan_out_entry.
    rewrite command_line_json by exact Hfmt.
    repeat f_equal; lia.
  - simpl in IH.
    assert (E2 : imap ((fun i => fan_out_entry (cwd self) tools
                          (length (spawned env) - k) (k + i)) ∘ S) tasks =
                 imap (fun i => fan_out_entry (cwd self) tools
                          (length (spawned env1) - S k) (S k + i)) tasks).
    { apply imap_ext. intros i y _. simpl. unfold env1. simpl.
      rewrite length_app. simpl.
      replace (length (spawned env) + 1 - S k) with (length (spawned env) - k)
        by lia.
      f_equal. lia. }
    rewrite E2. apply IH. unfold env1. simpl. rewrite length_app. simpl. lia.
Qed.

(** C3.  For a bound of at least one and a completion order in which every
    child completes, [fan_out] returns one entry per task, in the order of
    the tasks whatever the completion order: the entry at position [i]
    carries index [i] and task [T[i]], in front of the result of the
    process spawned for it. *)
Theorem fan_out_restores_order (tasks : list string) (dir : string)
  (max_conc : Z) (tools : option (list string)) (order : list nat)
  (env : Env) :
  (1 <= max_conc)%Z ->
  completes (length tasks) order ->
  exists env' results,
    fan_out tasks dir max_conc tools order env = Some (env', results)
    /\ results =
         imap (fan_out_entry (path_resolve dir) tools (length (spawned env)))
           tasks
    /\ length results = length tasks
    /\ forall i task, tasks !! i = Some task ->
         exists r, results !! i = Some r
           /\ PyDict.get "index" r = Some (JInt (Z.of_nat i))
           /\ PyDict.get "task" r = Some (JStr task).
Proof.
  intros Hmax Hall. unfold fan_out, new_swarm.
  destruct (max_conc <? 0)%Z eqn:E; [lia|]. cbn [mbind option_bind].
  set (self := mkSwarm empty_state max_conc (path_resolve dir) "json").
  set (rs := imap (fan_out_entry (path_resolve dir) tools
                     (length (spawned env))) tasks).
  assert (Hy : Forall2 yields
                 (snd (start_all (imap (run_task tools) tasks) (self, env)))
                 rs).
  { pose proof (start_all_run_task tools tasks self Hmax eq_refl 0 env
                  (Nat.le_0_l _)) as H.
    rewrite Nat.sub_0_r in H. exact H. }
  destruct (gather_returns (imap (run_task tools) tasks) order (self, env)
              rs Hy) as [s' Hg].
  { now rewrite length_imap. }
  rewrite Hg. cbn [mbind option_bind].
  rewrite sorted_by_index_ascending.
  2:{ intros i r Hr. unfold rs in Hr. rewrite list_lookup_imap in Hr.
      destruct (tasks !! i); simplify_eq/=. reflexivity. }
  cbn [mbind option_bind]. exists (snd s'), rs.
  split; [reflexivity|]. split; [reflexivity|].
  split; [apply length_imap|].
  intros i task Hi. eexists. split.
  - unfold rs. rewrite list_lookup_imap, Hi. reflexivity.
  - split; reflexivity.
Qed.

End FanOutProperties.

(** ** C8: [dispatch] *)

Section DispatchProperties.

Context {W : World}.

Lemma start_all_invoke (self : Swarm) (assignments : PyDict.t string) :
  (1 <= max_concurrent self)%Z ->
  forall env : Env,
    Forall2 yields
      (snd (start_all (map (fun '(nm, task) => invoke nm task) assignments)
              (self, env)))
      (dispatch_entries self (length (spawned env)) assignments).
Proof.
  intros Hmax.
  assert (Hlt : (max_concurrent self <? 1)%Z = false) by lia.
  induction assignments as [|[nm task] rest IH]; intros env; [constructor|].
  cbn [map start_all dispatch_entries]. unfold invoke at 1.
  destruct (PyDict.get nm (agents (state self))) as [agent|] eqn:Hget.
  - unfold then_co, _invoke_claude. rewrite Hlt.
    set (env1 := mkEnv _ (ticks env)).
    specialize (IH env1).
    destruct (start_all (map (fun '(nm, task) => invoke nm task) rest)
                (self, env1)) as [s2 sts] eqn:Hs.
    cbn [snd]. constructor.
    + cbn [yields]. intros [self' env']. cbn [now fst snd].
      now rewrite update_tag_process_result by discriminate.
    + unfold env1 in IH. cbn [spawned] in IH.
      rewrite length_app in IH. cbn [length] in IH.
      now rewrite Nat.add_1_r in IH.
  - specialize (IH env).
    destruct (start_all (map (fun '(nm, task) => invoke nm task) rest)
                (self, env)) as [s2 sts] eqn:Hs.
    cbn [snd]. constructor; [reflexivity | exact IH].
Qed.

Lemma dispatch_entries_length (self : Swarm) (assignments : PyDict.t string) :
  forall first, length (dispatch_entries self first assignments) =
                length assignments.
Proof.
  induction assignments as [|[nm task] rest IH]; intros first;
    [reflexivity|].
  cbn [dispatch_entries].
  destruct (PyDict.get nm (agents (state self))); cbn [length];
    now rewrite IH.
Qed.

Lemma dispatch_entries_lookup (self : Swarm) (assignments : PyDict.t string) :
  forall first i nm task, assignments !! i = Some (nm, task) ->
    exists r, dispatch_entries self first assignments !! i = Some r
      /\ if PyDict.contains nm (agents (state self))
         then PyDict.get "agent" r = Some (JStr nm)
         else r = not_found nm /\ PyDict.get "agent" r = None.
Proof.
  induction assignments as [|[nm0 task0] rest IH];
    intros first i nm task Hi; [discriminate|].
  cbn [dispatch_entries]. destruct i as [|i].
  - injection Hi as -> ->. unfold PyDict.contains.
    destruct (PyDict.get nm (agents (state self))); eexists;
      (split; [reflexivity|]); [reflexivity | split; reflexivity].
  - simpl in Hi.
    destruct (PyDict.get nm0 (agents (state self))); simpl; eauto.
Qed.

(** C8, as amended.  For a bound of at least one and a completion order in
    which every child completes, [dispatch] returns one result per entry of
    the assignments, whatever the completion order.  The result for an
    entry with a registered name carries that name under [agent]; the
    result for an entry with a name that is not registered is the not-found
    failure, which has no [agent] field.  (The results are paired with the
    entries by position.) *)
Theorem dispatch_results_by_entry (self : Swarm) (env : Env)
  (assignments : PyDict.t string) (order : list nat) :
  (1 <= max_concurrent self)%Z ->
  completes (length assignments) order ->
  exists sys' results,
    dispatch assignments order (self, env) = Some (sys', results)
    /\ results = dispatch_entries self (length (spawned env)) assignments
    /\ length results = length assignments
    /\ forall i nm task, assignments !! i = Some (nm, task) ->
         exists r, results !! i = Some r
           /\ if PyDict.contains nm (agents (state self))
              then PyDict.get "agent" r = Some (JStr nm)
              else r = [("success", JBool false);
                        ("error", JStr ("Agent '" +:+ nm +:+ "' not found"))]
                   /\ PyDict.get "agent" r = None.
Proof.
  intros Hmax Hall. unfold dispatch.
  destruct (gather_returns
              (map (fun '(nm, task) => invoke nm task) assignments) order
              (self, env) _ (start_all_invoke self assignments Hmax env))
    as [s' Hg].
  { now rewrite length_map. }
  exists s', (dispatch_entries self (length (spawned env)) assignments).
  split; [exact Hg|]. split; [reflexivity|].
  split; [apply dispatch_entries_length|].
  intros i nm task Hi. now apply dispatch_entries_lookup with (task := task).
Qed.

End DispatchProperties.

(** ** C7: [pipeline] *)

Section PipelineProperties.

Context {W : World}.

Lemma await_run_prompt (self : Swarm) (env : Env) (prompt : string)
  (tools : option (list string)) :
  (1 <= max_concurrent self)%Z ->
  let argv := command_line self prompt tools in
  let result :=
    process_result (run_process (length (spawned env)) argv (cwd self)) in
  await_co (run_prompt prompt tools) (self, env) =
    Some ((with_state self
             (append_history
                (history_entry (isoformat_now (ticks env)) JNull prompt result)
                (state self)),
           mkEnv (spawned env ++ [(argv, cwd self)]) (S (ticks env))),
          result).
Proof.
  intros Hmax argv result.
  assert (Hlt : (max_concurrent self <? 1)%Z = false) by lia.
  unfold await_co, run_prompt, then_co, _invoke_claude. rewrite Hlt.
  reflexivity.
Qed.

Lemma stage_prompt_issued (i : nat) (stage : string)
  (acc new : list result_dict) :
  length acc = i ->
  stage_prompt i stage acc = issued_prompt i stage (acc ++ new).
Proof.
  intros <-. unfold stage_prompt, issued_prompt.
  destruct acc as [|a acc _] using rev_ind; [reflexivity|].
  rewrite last_snoc, length_app. cbn [length].
  replace (length acc + 1) with (S (length acc)) by lia.
  cbn [Nat.ltb Nat.leb].
  rewrite <- app_assoc. cbn [app].
  rewrite list_lookup_middle by reflexivity.
  unfold blank_line. now rewrite !str_app_assoc.
Qed.

(** The loop, started at stage number [i] with [i] results so far. *)
Lemma pipeline_loop_spec (tools : option (list string))
  (stages : list string) :
  forall (i : nat) (acc : list result_dict) (self : Swarm) (env : Env),
    (1 <= max_concurrent self)%Z ->
    length acc = i ->
    exists self' env' new cmds,
      pipeline_loop tools i stages acc (self, env) =
        Some ((self', env'), acc ++ new)
      /\ length new = length stages
      /\ spawned env' = spawned env ++ cmds
      /\ length cmds = length stages
      /\ forall j stage, stages !! j = Some stage ->
           let prompt := issued_prompt (i + j) stage (acc ++ new) in
           let argv := command_line self prompt tools in
           cmds !! j = Some (argv, cwd self)
           /\ new !! j =
                Some (("stage", JInt (Z.of_nat (i + j))) ::
                      ("prompt", JStr stage) ::
                      process_result
                        (run_process (length (spawned env) + j) argv
                           (cwd self))).
Proof.
  induction stages as [|stage rest IH]; intros i acc self env Hmax Hlen.
  - exists self, env, [], []. cbn [pipeline_loop].
    rewrite !app_nil_r.
    split; [reflexivity|]. split; [reflexivity|]. split; [reflexivity|].
    split; [reflexivity|]. intros j st Hj. inversion Hj.
  - cbn [pipeline_loop].
    rewrite (await_run_prompt self env _ tools Hmax).
    cbn [mbind option_bind].
    rewrite update_tags_process_result by discriminate.
    set (argv0 := command_line self (stage_prompt i stage acc) tools).
    set (r := ("stage", JInt (Z.of_nat i)) :: ("prompt", JStr stage) ::
              process_result
                (run_process (length (spawned env)) argv0 (cwd self))).
    set (self1 := with_state self _).
    set (env1 := mkEnv _ (S (ticks env))).
    destruct (IH (S i) (acc ++ [r]) self1 env1 Hmax) as
      (self' & env' & new & cmds & Hrun & Hn & Hsp & Hc & Hall).
    { rewrite length_app. cbn [length]. lia. }
    exists self', env', (r :: new), ((argv0, cwd self) :: cmds).
    assert (Eapp : (acc ++ [r]) ++ new = acc ++ r :: new)
      by now rewrite <- app_assoc.
    rewrite Eapp in Hrun, Hall.
    split; [exact Hrun|]. split; [cbn [length]; now rewrite Hn|].
    split.
    { rewrite Hsp. unfold env1. cbn [spawned].
      now rewrite <- app_assoc. }
    split; [cbn [length]; now rewrite Hc|].
    intros j st Hj. destruct j as [|j].
    + injection Hj as <-. rewrite Nat.add_0_r.
      rewrite <- (stage_prompt_issued i stage acc (r :: new) Hlen).
      split; [reflexivity|]. cbn [lookup list_lookup].
      unfold r, argv0. now rewrite Nat.add_0_r.
    + cbn [lookup list_lookup] in Hj |- *.
      destruct (Hall j st Hj) as [H1 H2].
      replace (i + S j) with (S i + j) by lia.
      split; [exact H1|].
      refine (eq_trans H2 _). unfold env1. cbn [spawned].
      rewrite length_app. cbn [length].
      replace (length (spawned env) + 1 + j)
        with (length (spawned env) + S j) by lia.
      reflexivity.
Qed.

(** The invoker's result, case by case. *)
Lemma process_result_cases (proc : Completed) :
  process_result proc =
  if (returncode proc =? 0)%Z then
    [("success", JBool true);
     ("result", match json_loads (stdout proc) with
                | Some v => v
                | None => JStr (strip (stdout proc))
                end)]
  else
    [("success", JBool false);
     ("error", JStr (strip (stderr proc)));
     ("returncode", JInt (returncode proc))].
Proof.
  unfold process_result.
  destruct (returncode proc =? 0)%Z; cbn [negb];
    [destruct (json_loads (stdout proc))|]; reflexivity.
Qed.

(** C7, as amended.  [pipeline] spawns one process per stage, in the order
    of the stages, each after the result of the stage before it is known.
    The first prompt is the first stage's text.  The prompt of every later
    stage is its text, a blank line, the label [## Previous Stage Output]
    and a serialization: of the [result] entry of the record of the stage
    just before it when that stage succeeded, and of the empty string when
    it failed, for the record of a failed stage has no [result] entry.
    [pipeline] returns the list of the stage records in order, and the
    last of them, or [None] when there is no stage. *)
Theorem pipeline_contract (stages : list string) (dir : string)
  (tools : option (list string)) (env : Env) :
  exists env' results cmds,
    pipeline stages dir tools env =
      Some (env',
            [("stages", JList (map JDict results));
             ("final", match last results with
                       | Some r => JDict r
                       | None => JNull
                       end)])
    /\ length results = length stages
    /\ spawned env' = spawned env ++ cmds
    /\ length cmds = length stages
    /\ forall i stage, stages !! i = Some stage ->
         exists prompt record,
           let argv :=
             ["claude"; "-p"; prompt; "--output-format"; "json"] ++
             match tools with
             | Some (t :: ts) =>
                 ["--allowedTools"; String.concat "," (t :: ts)]
             | _ => []
             end in
           let proc :=
             run_process (length (spawned env) + i) argv (path_resolve dir) in
           let payload :=
             match json_loads (stdout proc) with
             | Some v => v
             | None => JStr (strip (stdout proc))
             end in
           cmds !! i = Some (argv, path_resolve dir)
           /\ results !! i = Some record
           /\ record =
                ("stage", JInt (Z.of_nat i)) :: ("prompt", JStr stage) ::
                (if (returncode proc =? 0)%Z then
                   [("success", JBool true); ("result", payload)]
                 else
                   [("success", JBool false);
                    ("error", JStr (strip (stderr proc)));
                    ("returncode", JInt (returncode proc))])
           /\ PyDict.get "result" record =
                (if (returncode proc =? 0)%Z then Some payload else None)
           /\ match i with
              | O => prompt = stage
              | S j =>
                  exists prev,
                    results !! j = Some prev
                    /\ prompt =
                         stage +:+ nl +:+ nl +:+
                         "## Previous Stage Output" +:+ nl +:+
                         json_dumps
                           match PyDict.get "result" prev with
                           | Some output => output
                           | None => JStr EmptyString
                           end
              end.
Proof.
  unfold pipeline, new_swarm. cbn [Z.ltb Z.compare mbind option_bind].
  set (self := mkSwarm empty_state 5 (path_resolve dir) "json").
  destruct (pipeline_loop_spec tools stages 0 [] self env
              ltac:(cbn; lia) eq_refl)
    as (self' & env' & new & cmds & Hrun & Hn & Hsp & Hc & Hall).
  cbn [app] in Hrun, Hall. rewrite Hrun. cbn [mbind option_bind snd].
  exists env', new, cmds.
  split; [reflexivity|]. split; [exact Hn|]. split; [exact Hsp|].
  split; [exact Hc|].
  intros i stage Hi. destruct (Hall i stage Hi) as [H1 H2].
  cbn [Nat.add] in H1, H2.
  rewrite (command_line_json self _ tools eq_refl) in H1, H2.
  rewrite process_result_cases in H2.
  exists (issued_prompt i stage new). eexists. cbn zeta.
  split; [exact H1|]. split; [exact H2|]. split; [reflexivity|]. split.
  - destruct (returncode _ =? 0)%Z; reflexivity.
  - destruct i as [|j]; [reflexivity|].
    assert (Hlt : j < length new).
    { rewrite Hn. apply lookup_lt_Some in Hi. lia. }
    destruct (lookup_lt_is_Some_2 new j Hlt) as [prev Hprev].
    exists prev. split; [exact Hprev|]. unfold issued_prompt.
    unfold result_dict in *. rewrite Hprev.
    unfold blank_line, PyDict.get_default. now rewrite !str_app_assoc.
Qed.

End PipelineProperties.

(** ** C6: [hierarchical] *)

Section HierarchicalProperties.

Context {W : World}.

Lemma parse_subtasks_cases (goal : string) (plan_result : result_dict) :
  json_loads "[]" = Some (JList []) ->
  parse_subtasks goal plan_result =
    match plan_payload plan_result with
    | None => []
    | Some payload =>
        match parsed_plan payload with
        | Some (JList l) => l
        | _ => [JStr goal]
        end
    end.
Proof.
  intros Hempty. unfold parse_subtasks, plan_payload, PyDict.get_default.
  destruct (PyDict.get "result" plan_result) as [raw|].
  - destruct raw as [| b | z | text | l | d]; try reflexivity.
    destruct (PyDict.get "result" d) as [inner|].
    + destruct inner; reflexivity.
    + cbn [parsed_plan]. now rewrite Hempty.
  - cbn [PyDict.get]. now rewrite Hempty.
Qed.

(** With no child there is nothing to resume. *)
Lemma resume_none {S R : Type} (order : list nat)
  (acc : S * list (option R)) :
  fold_left (resume []) order acc = acc.
Proof.
  induction order as [|i order IH]; [reflexivity|]. exact IH.
Qed.

(** [fan_out] on no task spawns nothing and returns the empty list. *)
Lemma fan_out_nothing (dir : string) (max_conc : Z)
  (tools : option (list string)) (order : list nat) (env : Env) :
  (0 <= max_conc)%Z ->
  fan_out [] dir max_conc tools order env = Some (env, []).
Proof.
  intros Hmax. unfold fan_out, new_swarm.
  destruct (max_conc <? 0)%Z eqn:E; [lia|]. cbn [mbind option_bind].
  unfold gather. cbn [imap start_all map]. rewrite resume_none.
  reflexivity.
Qed.

(** C6, as amended.  [hierarchical] runs phases 2 and 3 on the subtasks it
    derives from the planner's result.  When the planner's payload is text
    that does not parse, or is (or parses to) a value that is not a list,
    the subtasks are the goal alone and the fan-out runs the list [[goal]].
    When the payload is or parses to a list, that list is the subtasks.
    When the result has no payload (the planner failed, or printed an
    object without a [result] entry) the subtasks are the empty list and no
    worker runs: the fan-out spawns nothing, and the whole call spawns the
    planner and the synthesizer and returns empty subtasks and empty worker
    results. *)
Theorem hierarchical_plan_fallback (goal dir : string)
  (max_subtasks max_conc : Z) (tools : option (list string))
  (order : list nat) (env : Env) :
  (1 <= max_conc)%Z ->
  json_loads "[]" = Some (JList []) ->
  let plan_argv :=
    ["claude"; "-p"; plan_prompt goal max_subtasks;
     "--output-format"; "json"] in
  let plan_result :=
    process_result
      (run_process (length (spawned env)) plan_argv (path_resolve dir)) in
  let subtasks := parse_subtasks goal plan_result in
  exists sys1,
    await_co (run_prompt (plan_prompt goal max_subtasks) None)
      (mkSwarm empty_state max_conc (path_resolve dir) "json", env) =
      Some (sys1, plan_result)
    /\ hierarchical goal dir max_subtasks max_conc tools order env =
         execute_and_synthesize goal subtasks dir max_conc tools order sys1
    /\ (forall payload, plan_payload plan_result = Some payload ->
          parsed_plan payload = None -> subtasks = [JStr goal])
    /\ (forall payload v, plan_payload plan_result = Some payload ->
          parsed_plan payload = Some v -> is_list v = false ->
          subtasks = [JStr goal])
    /\ (forall payload l, plan_payload plan_result = Some payload ->
          parsed_plan payload = Some (JList l) -> subtasks = l)
    /\ (plan_payload plan_result = None -> subtasks = [])
    /\ execute_and_synthesize goal [JStr goal] dir max_conc tools order sys1 =
         ('(env1, worker_results) ←
            fan_out [goal] dir max_conc tools order (snd sys1);
          '(sys2, synthesis) ←
            await_co (run_prompt (synth_prompt goal worker_results) None)
              (fst sys1, env1);
          Some (snd sys2,
                [("goal", JStr goal);
                 ("subtasks", JList [JStr goal]);
                 ("worker_results", JList (map JDict worker_results));
                 ("synthesis", JDict synthesis)]))
    /\ (plan_payload plan_result = None ->
          let synth_argv :=
            ["claude"; "-p"; synth_prompt goal [];
             "--output-format"; "json"] in
          fan_out [] dir max_conc tools order (snd sys1) =
            Some (snd sys1, [])
          /\ exists env',
               hierarchical goal dir max_subtasks max_conc tools order env =
                 Some (env',
                       [("goal", JStr goal);
                        ("subtasks", JList []);
                        ("worker_results", JList []);
                        ("synthesis",
                          JDict
                            (process_result
                               (run_process (S (length (spawned env)))
                                  synth_argv (path_resolve dir))))])
               /\ spawned env' =
                    spawned env ++
                    [(plan_argv, path_resolve dir);
                     (synth_argv, path_resolve dir)]).
Proof.
  intros Hmax Hempty plan_argv plan_result subtasks.
  set (self := mkSwarm empty_state max_conc (path_resolve dir) "json").
  pose proof (await_run_prompt self env (plan_prompt goal max_subtasks) None
                Hmax) as Hplan.
  cbn zeta in Hplan.
  match type of Hplan with _ = Some (?s, _) => set (sys1 := s) in * end.
  exists sys1. split; [exact Hplan|].
  assert (Hh : hierarchical goal dir max_subtasks max_conc tools order env =
               execute_and_synthesize goal subtasks dir max_conc tools order
                 sys1).
  { unfold hierarchical, new_swarm.
    destruct (max_conc <? 0)%Z eqn:E; [lia|]. cbn [mbind option_bind].
    fold self. rewrite Hplan. reflexivity. }
  split; [exact Hh|].
  assert (Hsub : subtasks =
                 match plan_payload plan_result with
                 | None => []
                 | Some payload =>
                     match parsed_plan payload with
                     | Some (JList l) => l
                     | _ => [JStr goal]
                     end
                 end)
    by exact (parse_subtasks_cases goal plan_result Hempty).
  split; [|split; [|split; [|split; [|split]]]].
  - intros payload Hp Hnone. now rewrite Hsub, Hp, Hnone.
  - intros payload v Hp Hv Hl. rewrite Hsub, Hp, Hv.
    destruct v; try reflexivity. discriminate.
  - intros payload l Hp Hv. now rewrite Hsub, Hp, Hv.
  - intros Hp. now rewrite Hsub, Hp.
  - reflexivity.
  - intros Hp synth_argv.
    assert (Hfan : fan_out [] dir max_conc tools order (snd sys1) =
                   Some (snd sys1, []))
      by (apply fan_out_nothing; lia).
    split; [exact Hfan|].
    rewrite Hh, Hsub, Hp. unfold execute_and_synthesize.
    cbn [mapM mbind option_bind mret option_ret]. rewrite Hfan.
    cbn [mbind option_bind map].
    rewrite (await_run_prompt (fst sys1) (snd sys1) (synth_prompt goal [])
               None Hmax).
    cbn [mbind option_bind snd fst]. unfold sys1.
    cbn [snd fst spawned with_state cwd max_concurrent]. rewrite length_app.
    cbn [length]. rewrite Nat.add_1_r. eexists. split; [reflexivity|].
    cbn [spawned]. rewrite <- app_assoc. reflexivity.
Qed.

End HierarchicalProperties.

(** ** C4: persistence *)

Section PersistenceProperties.

Context {W : World}.

Lemma as_str_all (ts : list string) : mapM as_str (map JStr ts) = Some ts.
Proof.
  apply mapM_Some_2. induction ts; constructor; [reflexivity | assumption].
Qed.

Lemma from_dict_to_dict (a : Agent) : from_dict (to_dict a) = Some a.
Proof.
  destruct a as [nm rl sp mem tools]. unfold from_dict, to_dict.
  cbn [name role system_prompt memory allowed_tools].
  replace (forallb _ _) with true by (vm_compute; reflexivity).
  destruct tools as [ts|].
  - change (PyDict.get "allowed_tools" _) with (Some (JList (map JStr ts))).
    cbn [PyDict.get String.eqb Ascii.eqb Bool.eqb mbind option_bind as_str].
    rewrite as_str_all. reflexivity.
  - reflexivity.
Qed.

Lemma load_agents (ags : PyDict.t Agent) :
  mapM (fun '(k, v) => a ← from_dict v; Some (k, a))
    (map (fun '(k, v) => (k, to_dict v)) ags) = Some ags.
Proof.
  apply mapM_Some_2.
  induction ags as [|[k a] ags IH]; constructor; [|exact IH].
  now rewrite from_dict_to_dict.
Qed.

(** C4.  When the JSON library reads back the document it wrote, loading
    the path a state was saved to gives the same agents (names, roles,
    system prompts, memories and allowed tools, under the same keys and in
    the same order), the same shared context, and as history the most
    recent entries of the saved history, at most 100 of them: the entries
    before those are dropped. *)
Theorem save_load_roundtrip (st : SwarmState) (path : string)
  (fs : FileSystem) :
  json_loads (json_dumps (state_document st)) = Some (state_document st) ->
  let kept := last_n 100 (history st) in
  load path (save st path fs) =
    Some (mkSwarmState (agents st) (shared_context st) kept)
  /\ (exists dropped, history st = dropped ++ kept)
  /\ length kept = Nat.min 100 (length (history st)).
Proof.
  intros Hjson kept. split; [|split].
  - unfold load, save, FileSystem. rewrite lookup_insert_eq, Hjson.
    unfold state_document at 1.
    cbn [mbind option_bind PyDict.get_default PyDict.get String.eqb
         Ascii.eqb Bool.eqb].
    rewrite load_agents. reflexivity.
  - exists (take (length (history st) - 100) (history st)).
    apply last_n_suffix.
  - apply last_n_length.
Qed.

End PersistenceProperties.

(** * Examples

    The theorems at concrete inputs, in the world of the examples. *)

Lemma completes_2 : completes 2 [1; 0].
Proof. repeat constructor. Qed.


(** C3 with two tasks whose processes complete in the reverse order. *)
Lemma fan_out_restores_order_witness :
  (1 <= 5)%Z /\ completes 2 [1; 0] /\
  exists env' results,
    fan_out (W := scripted [exits 1 EmptyString "boom"; exits 0 "[1]" EmptyString])
      ["a"; "b"] "." 5 None [1; 0] no_env = Some (env', results)
    /\ map (PyDict.get "task") results = [Some (JStr "a"); Some (JStr "b")].
Proof.
  assert (H : (1 <= 5)%Z) by lia.
  split; [exact H|]. split; [exact completes_2|].
  destruct (fan_out_restores_order
              (W := scripted [exits 1 EmptyString "boom";
                              exits 0 "[1]" EmptyString])
              ["a"; "b"] "." 5 None [1; 0] no_env H completes_2)
    as (env' & results & Hrun & Hres & _).
  exists env', results. split; [exact Hrun|].
  rewrite Hres. reflexivity.
Defined.

(** C4 on the sample state: Python's [json] reads back what it wrote. *)
Lemma save_load_roundtrip_witness :
  PyJson.loads (PyJson.dumps (state_document (state sample_swarm))) =
    Some (state_document (state sample_swarm)) /\
  load (W := scripted []) "swarm.json"
    (save (W := scripted []) (state sample_swarm) "swarm.json" ∅) =
    Some (state sample_swarm).
Proof.
  assert (H : PyJson.loads (PyJson.dumps (state_document (state sample_swarm))) =
              Some (state_document (state sample_swarm)))
    by (vm_compute; reflexivity).
  split; [exact H|].
  exact (proj1 (save_load_roundtrip (W := scripted []) (state sample_swarm)
                  "swarm.json" ∅ H)).
Defined.



(** C6 on a planner whose text does not parse. *)
Lemma hierarchical_plan_fallback_witness :
  (1 <= 5)%Z /\ PyJson.loads "[]" = Some (JList []) /\
  exists sys1,
    hierarchical (W := scripted [exits 0 "first do this" EmptyString])
      "ship it" "." 5 5 None [0] no_env =
    execute_and_synthesize
      (W := scripted [exits 0 "first do this" EmptyString])
      "ship it" [JStr "ship it"] "." 5 None [0] sys1.
Proof.
  assert (H : (1 <= 5)%Z) by lia.
  assert (E : PyJson.loads "[]" = Some (JList [])) by (vm_compute; reflexivity).
  split; [exact H|]. split; [exact E|].
  destruct (hierarchical_plan_fallback
              (W := scripted [exits 0 "first do this" EmptyString])
              "ship it" "." 5 5 None [0] no_env H E)
    as (sys1 & _ & Hrun & Hbad & _).
  exists sys1. rewrite Hrun.
  rewrite (Hbad (JStr "first do this")) by (vm_compute; reflexivity).
  reflexivity.
Defined.

(** C6 as stated fails on a planner that prints an empty object: that is
    structured data and not a list, yet the subtasks are the empty list, not
    the goal, and no worker runs (the planner and the synthesizer are the
    only processes). *)
Lemma hierarchical_fallback_counterexample :
  PyJson.loads "{}" = Some (JDict [])
  /\ (hierarchical (W := scripted [exits 0 "{}" EmptyString])
        "ship it" "." 5 5 None [0] no_env
      ≫= fun '(env', out) =>
            Some (PyDict.get "subtasks" out, length (spawned env')))
     = Some (Some (JList []), 2)
  /\ JList [] <> JList [JStr "ship it"].
Proof.
  split; [vm_compute; reflexivity|]. split; [vm_compute; reflexivity|].
  discriminate.
Qed.

(** C7 as stated fails after a failed stage.  The first stage exits with
    1: its record holds the error and has no [result] entry.  The prompt of
    the second stage then ends with the serialization of the empty string,
    two quote characters, which is no serialization of the first stage's
    result: not of its record, not of the invoker's result, not of the
    error text. *)
Lemma pipeline_failed_stage_counterexample :
  (pipeline (W := scripted [exits 1 EmptyString "boom"])
     ["draft"; "review"] "." None no_env
   ≫= fun '(env', out) =>
         Some (map (fun c => nth 2 (fst c) EmptyString) (spawned env'),
               PyDict.get "stages" out))
  = Some (["draft";
           "review" +:+ nl +:+ nl +:+ "## Previous Stage Output" +:+ nl +:+
           PyJson.dq +:+ PyJson.dq],
          Some (JList
                  [JDict [("stage", JInt 0); ("prompt", JStr "draft");
                          ("success", JBool false); ("error", JStr "boom");
                          ("returncode", JInt 1)];
                   JDict [("stage", JInt 1); ("prompt", JStr "review");
                          ("success", JBool true); ("result", JDict [])]]))
  /\ PyJson.dumps (JStr EmptyString) = PyJson.dq +:+ PyJson.dq
  /\ PyJson.dq +:+ PyJson.dq <>
     PyJson.dumps
       (JDict [("stage", JInt 0); ("prompt", JStr "draft");
               ("success", JBool false); ("error", JStr "boom");
               ("returncode", JInt 1)])
  /\ PyJson.dq +:+ PyJson.dq <>
     PyJson.dumps
       (JDict [("success", JBool false); ("error", JStr "boom");
               ("returncode", JInt 1)])
  /\ PyJson.dq +:+ PyJson.dq <> PyJson.dumps (JStr "boom").
Proof.
  split; [vm_compute; reflexivity|]. split; [vm_compute; reflexivity|].
  split; [|split]; vm_compute; discriminate.
Qed.

(** C8 on one registered and one unknown name. *)
Lemma dispatch_results_by_entry_witness :
  (1 <= max_concurrent sample_swarm)%Z /\ completes 2 [1; 0] /\
  exists sys' results,
    dispatch (W := scripted []) [("security", "scan"); ("ghost", "scan")]
      [1; 0] (sample_swarm, no_env) = Some (sys', results)
    /\ length results = 2.
Proof.
  assert (H : (1 <= max_concurrent sample_swarm)%Z) by (cbn; lia).
  split; [exact H|]. split; [exact completes_2|].
  destruct (dispatch_results_by_entry (W := scripted []) sample_swarm no_env
              [("security", "scan"); ("ghost", "scan")] [1; 0] H completes_2)
    as (sys' & results & Hrun & _ & Hlen & _).
  exists sys', results. split; [exact Hrun | exact Hlen].
Defined.

(** C8 as stated fails there: the result for the unknown name has no
    [agent] field. *)
Lemma dispatch_untagged_counterexample :
  (dispatch (W := scripted []) [("security", "scan"); ("ghost", "scan")]
     [0; 1] (sample_swarm, no_env)
   ≫= fun '(_, results) => Some (map (PyDict.get "agent") results))
  = Some [Some (JStr "security"); None].
Proof. vm_compute. reflexivity. Qed.

(** C9 on a name that is not registered. *)
Lemma invoke_unregistered_unchanged_witness :
  PyDict.contains "ghost" (agents (state sample_swarm)) = false /\
  await_co (invoke (W := scripted []) "ghost" "scan") (sample_swarm, no_env) =
    Some ((sample_swarm, no_env),
          [("success", JBool false);
           ("error", JStr "Agent 'ghost' not found")]).
Proof.
  assert (H : PyDict.contains "ghost" (agents (state sample_swarm)) = false)
    by reflexivity.
  split; [exact H|].
  exact (invoke_unregistered_unchanged (W := scripted []) sample_swarm no_env
           "ghost" "scan" H).
Defined.

(** C10 on an agent that has a memory. *)
Lemma add_agent_discards_memory_witness :
  PyDict.get "security" (agents (state veteran_swarm)) = Some veteran /\
  PyDict.get "security"
    (agents (state (fst (add_agent veteran_swarm "security" "auditor"
                           EmptyString None)))) =
  Some (mkAgent "security" "auditor" EmptyString [] None).
Proof.
  assert (H : PyDict.get "security" (agents (state veteran_swarm)) =
              Some veteran) by reflexivity.
  split; [exact H|].
  destruct (add_agent_discards_memory veteran_swarm "security"
              "auditor" EmptyString None veteran H) as (Ha & Hg & _).
  rewrite Hg, Ha. reflexivity.
Defined.

(** * Further properties of the orchestrator *)

Module PyDictMore.

Import PyDict.

Lemma get_in_keys {V} (k : string) (d : t V) :
  k ∈ keys d -> exists v, get k d = Some v.
Proof.
  unfold keys. induction d as [|[k0 v0] d IH]; simpl; intros Hin.
  - inversion Hin.
  - destruct (String.eqb k k0) eqn:E; [eauto|].
    apply elem_of_cons in Hin as [->|Hin]; [|auto].
    now rewrite String.eqb_refl in E.
Qed.

Lemma get_none_not_in_keys {V} (k : string) (d : t V) :
  get k d = None -> k ∉ keys d.
Proof.
  intros Hn Hin. destruct (get_in_keys k d Hin) as [v Hv]. congruence.
Qed.

Lemma not_in_keys_get {V} (k : string) (d : t V) :
  k ∉ keys d -> get k d = None.
Proof.
  unfold keys. induction d as [|[k0 v0] d IH]; simpl; intros Hn;
    [reflexivity|].
  destruct (String.eqb k k0) eqn:E.
  - apply String.eqb_eq in E. subst. exfalso. apply Hn. left.
  - apply IH. intros Hin. apply Hn. now right.
Qed.

Lemma get_del_ne {V} (k k' : string) (d : t V) :
  k' <> k -> get k' (del k d) = get k' d.
Proof.
  intros Hne. induction d as [|[k0 v0] d IH]; simpl; [reflexivity|].
  destruct (String.eqb k k0) eqn:E; simpl.
  - apply String.eqb_eq in E. subst k0.
    destruct (String.eqb k' k) eqn:E'; [|reflexivity].
    apply String.eqb_eq in E'. contradiction.
  - now rewrite IH.
Qed.

Lemma keys_del_notin {V} (k : string) (d : t V) :
  NoDup (keys d) -> k ∉ keys (del k d).
Proof.
  unfold keys. induction d as [|[k0 v0] d IH]; simpl; intros Hnd.
  - intros Hin. inversion Hin.
  - apply NoDup_cons in Hnd as [Hk0 Hnd].
    destruct (String.eqb k k0) eqn:E.
    + apply String.eqb_eq in E. now subst.
    + simpl. intros Hin. apply elem_of_cons in Hin as [->|Hin].
      * now rewrite String.eqb_refl in E.
      * now apply IH.
Qed.

Lemma del_set_fresh {V} (k : string) (v : V) (d : t V) :
  get k d = None -> del k (set k v d) = d.
Proof.
  induction d as [|[k0 v0] d IH]; simpl; intros Hg.
  - now rewrite String.eqb_refl.
  - destruct (String.eqb k k0) eqn:E; [discriminate|].
    simpl. rewrite E. now rewrite IH.
Qed.

Lemma keys_set_fresh {V} (k : string) (v : V) (d : t V) :
  get k d = None -> keys (set k v d) = keys d ++ [k].
Proof.
  unfold keys. induction d as [|[k0 v0] d IH]; simpl; intros Hg;
    [reflexivity|].
  destruct (String.eqb k k0) eqn:E; [discriminate|].
  simpl. now rewrite IH.
Qed.

(** Writing an entry keeps the keys distinct. *)
Lemma keys_set_nodup {V} (k : string) (v : V) (d : t V) :
  NoDup (keys d) -> NoDup (keys (set k v d)).
Proof.
  intros Hnd. destruct (get k d) as [x|] eqn:Hg.
  - rewrite PyDictFacts.keys_set_present; [exact Hnd|].
    unfold contains. now rewrite Hg.
  - rewrite keys_set_fresh by exact Hg.
    apply NoDup_app. split; [exact Hnd|]. split.
    + intros x Hx Hin. apply list_elem_of_singleton in Hin. subst.
      now apply get_none_not_in_keys in Hg.
    + apply NoDup_singleton.
Qed.

End PyDictMore.

Section RegistryProperties.

Context {W : World}.

(** X1.  [remove_agent] reports whether the name was registered; afterwards
    the name is not registered, every other name maps to the agent it mapped
    to before, and the context and the history are untouched; removing a name
    that is not registered changes nothing. *)
Theorem remove_agent_effect (self : Swarm) (nm : string) :
  NoDup (PyDict.keys (agents (state self))) ->
  let self' := fst (remove_agent self nm) in
  snd (remove_agent self nm) = PyDict.contains nm (agents (state self))
  /\ PyDict.contains nm (agents (state self')) = false
  /\ (forall other, other <> nm ->
        PyDict.get other (agents (state self')) =
        PyDict.get other (agents (state self)))
  /\ shared_context (state self') = shared_context (state self)
  /\ history (state self') = history (state self)
  /\ (PyDict.contains nm (agents (state self)) = false -> self' = self).
Proof.
  intros Hnd. unfold remove_agent.
  destruct (PyDict.contains nm (agents (state self))) eqn:Hc; cbn.
  - split; [reflexivity|]. split.
    { apply PyDictFacts.contains_get. apply PyDictMore.not_in_keys_get.
      now apply PyDictMore.keys_del_notin. }
    split; [intros other Hne; now apply PyDictMore.get_del_ne|].
    repeat split. discriminate.
  - split; [reflexivity|]. split; [exact Hc|]. repeat split.
Qed.

(** X2.  Registering a name that is not registered and removing it again
    gives back the registry as it was, and the removal reports [True]. *)
Theorem add_then_remove_agent (self : Swarm) (nm rl sp : string)
  (tools : option (list string)) :
  PyDict.contains nm (agents (state self)) = false ->
  let added := fst (add_agent self nm rl sp tools) in
  remove_agent added nm = (self, true).
Proof.
  intros Hc. apply PyDictFacts.contains_get in Hc. cbn.
  unfold remove_agent, add_agent. cbn.
  unfold PyDict.contains. rewrite PyDictFacts.get_set_eq.
  rewrite PyDictMore.del_set_fresh by exact Hc.
  destruct self as [[ag ctx h] m d f]. reflexivity.
Qed.

(** X3.  [update_context] makes the key map to the value, keeps every other
    key and leaves the agents and the history alone; the context then is not
    empty, so every prompt built afterwards has a Shared Context block. *)
Theorem update_context_effect (self : Swarm) (key : string) (value : json) :
  let self' := update_context self key value in
  PyDict.get key (shared_context (state self')) = Some value
  /\ (forall other, other <> key ->
        PyDict.get other (shared_context (state self')) =
        PyDict.get other (shared_context (state self)))
  /\ agents (state self') = agents (state self)
  /\ history (state self') = history (state self)
  /\ list_truthy (shared_context (state self')) = true.
Proof.
  cbn. split; [apply PyDictFacts.get_set_eq|].
  split; [intros other Hne; now apply PyDictFacts.get_set_ne|].
  repeat split.
  destruct (shared_context (state self)) as [|[k0 v0] c]; simpl;
    [reflexivity|]. now destruct (String.eqb key k0).
Qed.

(** X4.  After [clear_context] the context is empty whatever it held, and a
    prompt has no Shared Context block: it is the join of the identity line,
    the system prompt and the memory block, as far as present, and the Task
    block. *)
Theorem clear_context_prompt (self : Swarm) (agent : Agent) (task : string) :
  let self' := clear_context self in
  shared_context (state self') = []
  /\ agents (state self') = agents (state self)
  /\ history (state self') = history (state self)
  /\ _build_prompt (state self') agent task =
       String.concat blank_line
         (when (str_truthy (role agent)) (identity_line agent) ++
          when (str_truthy (system_prompt agent)) (system_prompt agent) ++
          when (list_truthy (memory agent))
            (memory_block (last_n 5 (memory agent))) ++
          [task_block task]).
Proof.
  cbn. repeat split.
  unfold _build_prompt, when, blank_line. cbn [shared_context list_truthy].
  destruct (str_truthy (role agent)), (str_truthy (system_prompt agent)),
    (list_truthy (memory agent)); reflexivity.
Qed.

End RegistryProperties.

Section InvocationProperties.

Context {W : World}.

(** The system after [invoke] on a registered agent, in full. *)
Lemma await_invoke_registered (self : Swarm) (env : Env)
  (agent_name task : string) (agent : Agent) :
  (1 <= max_concurrent self)%Z ->
  PyDict.get agent_name (agents (state self)) = Some agent ->
  let argv :=
    command_line self (_build_prompt (state self) agent task)
      (allowed_tools agent) in
  let result :=
    process_result (run_process (length (spawned env)) argv (cwd self)) in
  let entry := memory_entry (isoformat_now (ticks env)) task result in
  await_co (invoke agent_name task) (self, env) =
    Some ((with_state self
             (append_history
                (history_entry (isoformat_now (S (ticks env)))
                   (JStr agent_name) task result)
                (set_agents (state self)
                   (PyDict.set agent_name
                      (set_memory agent (memory agent ++ [entry]))
                      (agents (state self))))),
           mkEnv (spawned env ++ [(argv, cwd self)]) (S (S (ticks env)))),
          ("agent", JStr agent_name) :: result).
Proof.
  intros Hmax Hget argv result entry.
  assert (Hlt : (max_concurrent self <? 1)%Z = false) by lia.
  unfold await_co, invoke. rewrite Hget.
  unfold then_co, _invoke_claude. rewrite Hlt.
  cbn [fst snd now with_state state spawned ticks].
  rewrite update_tag_process_result by discriminate.
  unfold append_memory. rewrite Hget. reflexivity.
Qed.

(** X5.  [run_prompt] on a swarm with a bound of at least one spawns one
    process for the prompt as it is, returns the invoker's result, appends to
    the history one record with no agent, the prompt as task and that result,
    and leaves the registry, with every agent's memory, and the context as
    they were. *)
Theorem run_prompt_logs_only (self : Swarm) (env : Env) (prompt : string)
  (tools : option (list string)) :
  (1 <= max_concurrent self)%Z ->
  exists self' env' result ts,
    await_co (run_prompt prompt tools) (self, env) =
      Some ((self', env'), result)
    /\ result =
         process_result
           (run_process (length (spawned env))
              (command_line self prompt tools) (cwd self))
    /\ spawned env' =
         spawned env ++ [(command_line self prompt tools, cwd self)]
    /\ agents (state self') = agents (state self)
    /\ shared_context (state self') = shared_context (state self)
    /\ history (state self') =
         history (state self) ++
         [JDict [("timestamp", JStr ts); ("agent", JNull);
                 ("task", JStr prompt); ("result", JDict result)]].
Proof.
  intros Hmax. rewrite (await_run_prompt self env prompt tools Hmax).
  do 4 eexists. split; [reflexivity|]. repeat split.
Qed.

(** X6.  The record [invoke] appends to the agent's memory holds the task,
    a success flag that is true exactly when the process exited with 0, and
    as result the parsed or stripped output on success and the stripped
    error text on failure. *)
Theorem invoke_memory_record (self : Swarm) (env : Env)
  (agent_name task : string) (agent : Agent) :
  (1 <= max_concurrent self)%Z ->
  PyDict.get agent_name (agents (state self)) = Some agent ->
  let proc :=
    run_process (length (spawned env))
      (command_line self (_build_prompt (state self) agent task)
         (allowed_tools agent))
      (cwd self) in
  exists self' env' result agent' ts,
    await_co (invoke agent_name task) (self, env) =
      Some ((self', env'), result)
    /\ PyDict.get agent_name (agents (state self')) = Some agent'
    /\ length (memory agent') = S (length (memory agent))
    /\ last (memory agent') =
         Some (JDict
                 [("timestamp", JStr ts);
                  ("task", JStr task);
                  ("result",
                    if (returncode proc =? 0)%Z then
                      match json_loads (stdout proc) with
                      | Some v => v
                      | None => JStr (strip (stdout proc))
                      end
                    else JStr (strip (stderr proc)));
                  ("success", JBool (returncode proc =? 0)%Z)]).
Proof.
  intros Hmax Hget proc.
  rewrite (await_invoke_registered self env agent_name task agent Hmax Hget).
  do 5 eexists. split; [reflexivity|].
  cbn [state with_state append_history set_history set_agents agents].
  split; [apply PyDictFacts.get_set_eq|].
  cbn [memory set_memory]. split.
  - rewrite length_app. cbn [length]. lia.
  - rewrite last_snoc. f_equal. unfold memory_entry. fold proc.
    unfold process_result, succeeded, get_or_none, PyDict.get_default.
    destruct (returncode proc =? 0)%Z; cbn [negb];
      [destruct (json_loads (stdout proc))|]; reflexivity.
Qed.

Lemma concat_empty_snoc (l : list string) (x : string) :
  String.concat EmptyString (l ++ [x]) = String.concat EmptyString l +:+ x.
Proof.
  induction l as [|p l IH]; [reflexivity|].
  destruct l as [|q l].
  - reflexivity.
  - change ((p :: q :: l) ++ [x]) with (p :: q :: (l ++ [x])).
    rewrite !concat_cons_cons.
    change (q :: (l ++ [x])) with ((q :: l) ++ [x]). rewrite IH.
    change (EmptyString +:+ ?u) with u.
    now rewrite str_app_assoc.
Qed.

(** A prompt for an agent with a memory: the memory block, a blank line and
    the Task block end it. *)
Lemma build_prompt_with_memory (st : SwarmState) (agent : Agent)
  (task : string) :
  list_truthy (memory agent) = true ->
  exists before,
    _build_prompt st agent task =
      before +:+ memory_block (last_n 5 (memory agent)) +:+ blank_line +:+
      task_block task.
Proof.
  intros Hmem. unfold _build_prompt. rewrite Hmem.
  set (parts := if list_truthy (shared_context st) then _ else _).
  exists (String.concat EmptyString (map (fun p => p +:+ blank_line) parts)).
  fold blank_line. rewrite concat_snoc, map_app. cbn [map].
  rewrite concat_empty_snoc. now rewrite !str_app_assoc.
Qed.

(** X7.  After [invoke], the next prompt built for the agent shows the
    interaction just recorded: its memory block serializes the last four
    records of the old memory followed by the new record, and the Task block
    comes right after it. *)
Theorem invoke_then_prompt (self : Swarm) (env : Env)
  (agent_name task next : string) (agent : Agent) :
  (1 <= max_concurrent self)%Z ->
  PyDict.get agent_name (agents (state self)) = Some agent ->
  exists self' env' result agent' record,
    await_co (invoke agent_name task) (self, env) =
      Some ((self', env'), result)
    /\ PyDict.get agent_name (agents (state self')) = Some agent'
    /\ memory agent' = memory agent ++ [record]
    /\ exists before,
         _build_prompt (state self') agent' next =
           before +:+
           memory_block (last_n 4 (memory agent) ++ [record]) +:+
           blank_line +:+ task_block next.
Proof.
  intros Hmax Hget.
  rewrite (await_invoke_registered self env agent_name task agent Hmax Hget).
  do 5 eexists. split; [reflexivity|].
  cbn [state with_state append_history set_history set_agents agents].
  split; [apply PyDictFacts.get_set_eq|].
  split; [reflexivity|].
  set (record := memory_entry _ task _).
  set (agent' := set_memory agent (memory agent ++ [record])).
  assert (Hrecent : last_n 5 (memory agent') =
                    last_n 4 (memory agent) ++ [record]).
  { unfold agent', last_n. cbn [memory set_memory].
    rewrite length_app. cbn [length].
    replace (length (memory agent) + 1 - 5) with (length (memory agent) - 4)
      by lia.
    rewrite drop_app_le by lia. reflexivity. }
  assert (Hmem : list_truthy (memory agent') = true).
  { unfold agent'. cbn [memory set_memory]. now destruct (memory agent). }
  rewrite <- Hrecent. now apply build_prompt_with_memory.
Qed.

End InvocationProperties.

Section ResultProperties.

Context {W : World}.

(** X8.  The invoker's result says success exactly when the exit code is 0,
    and it holds either a [result] or an [error] with the [returncode],
    never both. *)
Theorem process_result_either (proc : Completed) :
  PyDict.get "success" (process_result proc) =
    Some (JBool (returncode proc =? 0)%Z)
  /\ (is_Some (PyDict.get "result" (process_result proc)) <->
      returncode proc = 0%Z)
  /\ (is_Some (PyDict.get "error" (process_result proc)) <->
      returncode proc <> 0%Z)
  /\ (PyDict.get "returncode" (process_result proc) =
      if (returncode proc =? 0)%Z then None
      else Some (JInt (returncode proc))).
Proof.
  unfold process_result.
  destruct (Z.eqb_spec (returncode proc) 0) as [E|E]; cbn [negb].
  - destruct (json_loads (stdout proc)); cbn; repeat split; eauto;
      try (intros [x Hx]; discriminate); congruence.
  - cbn. repeat split; eauto; try (intros [x Hx]; discriminate);
      try congruence.
Qed.

(** X9.  [broadcast] sends the task to every registered agent: for a bound
    of at least one and a completion order in which every child completes,
    it returns one result per agent, in the order of the registry, and each
    result carries its agent's name, so none is a not-found failure. *)
Theorem broadcast_reaches_all (self : Swarm) (env : Env) (task : string)
  (order : list nat) :
  (1 <= max_concurrent self)%Z ->
  completes (length (agents (state self))) order ->
  exists sys' results,
    broadcast task order (self, env) = Some (sys', results)
    /\ length results = length (agents (state self))
    /\ forall i nm, PyDict.keys (agents (state self)) !! i = Some nm ->
         exists r, results !! i = Some r
           /\ PyDict.get "agent" r = Some (JStr nm).
Proof.
  intros Hmax Hall. unfold broadcast, dispatch. cbn [fst].
  set (assignments :=
         map (fun nm => (nm, task)) (PyDict.keys (agents (state self)))).
  assert (Hlen : length assignments = length (agents (state self))).
  { unfold assignments, PyDict.keys. now rewrite !length_map. }
  destruct (gather_returns
              (map (fun '(nm, task) => invoke nm task) assignments) order
              (self, env) _ (start_all_invoke self assignments Hmax env))
    as [s' Hg].
  { rewrite length_map, Hlen. exact Hall. }
  exists s', (dispatch_entries self (length (spawned env)) assignments).
  split; [exact Hg|].
  split; [now rewrite dispatch_entries_length|].
  intros i nm Hi.
  assert (Ha : assignments !! i = Some (nm, task)).
  { unfold assignments. rewrite list_lookup_fmap, Hi. reflexivity. }
  destruct (dispatch_entries_lookup self assignments (length (spawned env))
              i nm task Ha) as (r & Hr & Htag).
  exists r. split; [exact Hr|].
  assert (Hin : nm ∈ PyDict.keys (agents (state self))).
  { eapply list_elem_of_lookup_2. exact Hi. }
  destruct (PyDictMore.get_in_keys nm _ Hin) as [a Hget].
  unfold PyDict.contains in Htag. now rewrite Hget in Htag.
Qed.

End ResultProperties.

(** * Further properties of persistence *)

Section PersistenceMore.

Context {W : World}.

Lemma load_after_save (st : SwarmState) (path : string) (fs : FileSystem) :
  json_loads (json_dumps (state_document st)) = Some (state_document st) ->
  load path (save st path fs) =
    Some (mkSwarmState (agents st) (shared_context st)
            (last_n 100 (history st))).
Proof.
  intros Hjson. unfold load, save, FileSystem.
  rewrite lookup_insert_eq, Hjson. unfold state_document at 1.
  cbn [mbind option_bind PyDict.get_default PyDict.get String.eqb
       Ascii.eqb Bool.eqb].
  rewrite load_agents. reflexivity.
Qed.

(** X10.  [Agent.to_dict] and [Agent.from_dict] are inverse on agents:
    reading the dictionary of an agent gives that agent back, so two agents
    with the same dictionary are the same agent. *)
Theorem agent_dict_roundtrip (a b : Agent) :
  from_dict (to_dict a) = Some a
  /\ (to_dict a = to_dict b -> a = b).
Proof.
  split; [apply from_dict_to_dict|].
  intros E. pose proof (from_dict_to_dict a) as Ha.
  rewrite E, from_dict_to_dict in Ha. congruence.
Qed.

(** X11.  [Agent.from_dict] raises on data the constructor does not take:
    a dictionary with a key that is no field of [Agent], or without [name],
    or without [role]. *)
Theorem from_dict_rejects (d : PyDict.t json) :
  ((exists k, k ∈ PyDict.keys d /\ k ∉ agent_fields) ->
     from_dict (JDict d) = None)
  /\ (PyDict.get "name" d = None -> from_dict (JDict d) = None)
  /\ (PyDict.get "role" d = None -> from_dict (JDict d) = None).
Proof.
  unfold from_dict. split; [|split].
  - intros (k & Hin & Hout).
    destruct (forallb _ (PyDict.keys d)) eqn:E; [|reflexivity].
    rewrite forallb_forall in E. exfalso. apply Hout.
    apply list_elem_of_In in Hin. specialize (E k Hin).
    now apply bool_decide_eq_true in E.
  - intros Hn. rewrite Hn. now destruct (forallb _ _).
  - intros Hn. rewrite Hn. destruct (forallb _ _); [|reflexivity].
    destruct (PyDict.get "name" d ≫= as_str); reflexivity.
Qed.

(** X13.  A state whose history has at most 100 entries is read back exactly
    as it was saved, when the JSON library reads back the document it
    wrote. *)
Theorem save_load_exact (st : SwarmState) (path : string) (fs : FileSystem) :
  json_loads (json_dumps (state_document st)) = Some (state_document st) ->
  length (history st) <= 100 ->
  load path (save st path fs) = Some st.
Proof.
  intros Hjson Hlen. rewrite (load_after_save st path fs Hjson).
  rewrite last_n_short by exact Hlen. now destruct st.
Qed.

(** X14.  Saving a state that was loaded and loading it again changes
    nothing: the entries dropped by the first save are the only ones ever
    dropped. *)
Theorem save_load_stable (st st1 : SwarmState) (path : string)
  (fs fs' : FileSystem) :
  json_loads (json_dumps (state_document st)) = Some (state_document st) ->
  json_loads (json_dumps (state_document st1)) = Some (state_document st1) ->
  load path (save st path fs) = Some st1 ->
  load path (save st1 path fs') = Some st1.
Proof.
  intros Hjson Hjson1 Hload.
  rewrite (load_after_save st path fs Hjson) in Hload.
  injection Hload as <-.
  rewrite (load_after_save _ path fs' Hjson1).
  cbn [agents shared_context history]. f_equal. f_equal.
  apply last_n_short. rewrite last_n_length. lia.
Qed.

(** X15.  [load] raises on a file that is not JSON, and on one whose JSON
    is an array, a string, a number, a boolean or [null] rather than an
    object. *)
Theorem load_malformed (path text : string) (fs : FileSystem) :
  fs !! path_resolve path = Some text ->
  (json_loads text = None -> load path fs = None)
  /\ (forall v, json_loads text = Some v ->
        (forall d, v <> JDict d) -> load path fs = None).
Proof.
  intros Hfile. unfold load. rewrite Hfile. split.
  - intros Hn. now rewrite Hn.
  - intros v Hv Hnd. rewrite Hv. cbn [mbind option_bind].
    destruct v; try reflexivity. exfalso. now apply (Hnd d).
Qed.

End PersistenceMore.

(** * Further properties of the event loop *)

Section GatherMore.

Context {S R : Type}.
Implicit Types (steps : list (step S R)) (slots : list (option R)).

Lemma resume_keeps (Q : S -> Prop) steps (acc : S * list (option R))
  (i : nat) :
  Forall (keeps Q) steps -> Q (fst acc) -> Q (fst (resume steps acc i)).
Proof.
  intros Hk Hq. unfold resume.
  destruct (steps !! i) as [[r|k|]|] eqn:Hst; try exact Hq.
  destruct (snd acc !! i) as [[x|]|]; try exact Hq.
  rewrite Forall_lookup in Hk. specialize (Hk i _ Hst (fst acc) Hq).
  simpl in Hk. destruct (k (fst acc)). exact Hk.
Qed.

Lemma resume_all_keeps (Q : S -> Prop) steps (order : list nat) :
  Forall (keeps Q) steps ->
  forall acc, Q (fst acc) -> Q (fst (fold_left (resume steps) order acc)).
Proof.
  intros Hk. induction order as [|i order IH]; intros acc Hq; [exact Hq|].
  simpl. apply IH. now apply resume_keeps.
Qed.

(** What holds once all children have started and is kept by each of them
    holds when [gather] returns. *)
Lemma gather_keeps (Q : S -> Prop) (cs : list (coroutine S R))
  (order : list nat) (s s' : S) (rs : list R) :
  Forall (keeps Q) (snd (start_all cs s)) ->
  Q (fst (start_all cs s)) ->
  gather cs order s = Some (s', rs) ->
  Q s'.
Proof.
  unfold gather. destruct (start_all cs s) as [s1 steps]. simpl.
  intros Hk Hq Hg.
  pose proof (resume_all_keeps Q steps order Hk (s1, map slot_of steps) Hq)
    as Hend.
  destruct (fold_left (resume steps) order (s1, map slot_of steps))
    as [s2 slots].
  destruct (mapM id slots); [|discriminate]. now injection Hg as <- _.
Qed.

(** A slot stays empty when its child waits for ever or is never resumed. *)
Lemma resume_leaves_empty steps (acc : S * list (option R)) (i j : nat) :
  steps !! i = Some Hang \/ i <> j ->
  snd acc !! i = Some None ->
  snd (resume steps acc j) !! i = Some None.
Proof.
  intros Hwhy Hempty. unfold resume.
  destruct (steps !! j) as [[r|k|]|] eqn:Hst; try exact Hempty.
  destruct (snd acc !! j) as [[x|]|] eqn:Hslot; try exact Hempty.
  destruct (k (fst acc)) as [s' r]. simpl.
  destruct (decide (j = i)) as [->|Hne].
  - destruct Hwhy as [Hh|Hh]; [congruence | contradiction].
  - now rewrite list_lookup_insert_ne.
Qed.

Lemma resume_all_leaves_empty steps (order : list nat) (i : nat) :
  steps !! i = Some Hang \/ i ∉ order ->
  forall acc, snd acc !! i = Some None ->
    snd (fold_left (resume steps) order acc) !! i = Some None.
Proof.
  intros Hwhy. induction order as [|j order IH]; intros acc He; [exact He|].
  simpl. apply IH.
  - destruct Hwhy as [Hh|Hh]; [now left|]. right.
    intros Hin. apply Hh. now right.
  - apply resume_leaves_empty; [|exact He].
    destruct Hwhy as [Hh|Hh]; [now left|]. right.
    intros ->. apply Hh. now left.
Qed.

(** [gather] does not return when a child that has not returned at the
    start waits for ever or never completes. *)
Lemma gather_waits (cs : list (coroutine S R)) (order : list nat) (s : S)
  (i : nat) (st : step S R) :
  snd (start_all cs s) !! i = Some st ->
  slot_of st = None ->
  st = Hang \/ i ∉ order ->
  gather cs order s = None.
Proof.
  unfold gather. destruct (start_all cs s) as [s1 steps]. simpl.
  intros Hst Hslot Hwhy.
  assert (Hinit : snd (s1, map slot_of steps) !! i = Some None).
  { simpl. now rewrite list_lookup_fmap, Hst, <- Hslot. }
  assert (Hwhy' : steps !! i = Some Hang \/ i ∉ order).
  { destruct Hwhy as [->|Hn]; [now left | now right]. }
  pose proof (resume_all_leaves_empty steps order i Hwhy' _ Hinit) as Hend.
  destruct (fold_left (resume steps) order (s1, map slot_of steps))
    as [s2 slots]. simpl in Hend.
  destruct (mapM id slots) as [rs|] eqn:M; [|reflexivity].
  apply mapM_Some_1 in M.
  destruct (Forall2_lookup_l _ _ _ _ _ M Hend) as (y & _ & Hy).
  discriminate.
Qed.

End GatherMore.

(** * Further properties of [fan_out] *)

Section FanOutMore.

Context {W : World}.

(** The children of [fan_out] at the start: none has returned, and with a
    bound below one each waits for ever. *)
Lemma start_all_run_task_suspended (tools : option (list string))
  (tasks : list string) (self : Swarm) :
  forall (k : nat) (env : Env),
    Forall (fun st => slot_of st = None
                      /\ ((max_concurrent self < 1)%Z -> st = Hang))
      (snd (start_all (imap (fun i => run_task tools (k + i)) tasks)
              (self, env))).
Proof.
  induction tasks as [|task tasks IH]; intros k env; [constructor|].
  rewrite imap_cons. cbn [start_all].
  assert (E1 : imap ((fun i => run_task tools (k + i)) ∘ S) tasks =
               imap (fun i => run_task tools (S k + i)) tasks).
  { apply imap_ext. intros i y _. simpl. f_equal. lia. }
  rewrite E1.
  unfold run_task at 1, then_co, run_prompt, then_co, _invoke_claude.
  destruct (max_concurrent self <? 1)%Z eqn:Hb.
  - specialize (IH (S k) env).
    destruct (start_all (imap (fun i => run_task tools (S k + i)) tasks)
                (self, env)) as [s2 sts].
    cbn [snd]. constructor; [|exact IH]. cbn. auto.
  - set (env1 := mkEnv _ (ticks env)). specialize (IH (S k) env1).
    destruct (start_all (imap (fun i => run_task tools (S k + i)) tasks)
                (self, env1)) as [s2 sts].
    cbn [snd]. constructor; [|exact IH].
    split; [reflexivity | lia].
Qed.

(** The system once the children of [fan_out] have started: one process per
    task has been spawned, in the order of the tasks. *)
Lemma start_all_run_task_state (tools : option (list string))
  (tasks : list string) (self : Swarm) :
  (1 <= max_concurrent self)%Z ->
  forall (k : nat) (env : Env),
    fst (start_all (imap (fun i => run_task tools (k + i)) tasks) (self, env))
    = (self,
       mkEnv (spawned env ++
              map (fun t => (command_line self t tools, cwd self)) tasks)
         (ticks env)).
Proof.
  intros Hmax.
  assert (Hlt : (max_concurrent self <? 1)%Z = false) by lia.
  induction tasks as [|task tasks IH]; intros k env.
  - cbn. rewrite app_nil_r. now destruct env.
  - rewrite imap_cons. cbn [start_all].
    assert (E1 : imap ((fun i => run_task tools (k + i)) ∘ S) tasks =
                 imap (fun i => run_task tools (S k + i)) tasks).
    { apply imap_ext. intros i y _. simpl. f_equal. lia. }
    rewrite E1.
    unfold run_task at 1, then_co, run_prompt, then_co, _invoke_claude.
    rewrite Hlt.
    set (env1 := mkEnv _ (ticks env)). specialize (IH (S k) env1).
    destruct (start_all (imap (fun i => run_task tools (S k + i)) tasks)
                (self, env1)) as [s2 sts].
    cbn [fst] in IH |- *. rewrite IH. unfold env1. cbn [spawned ticks map].
    now rewrite <- app_assoc.
Qed.

(** The children of [fan_out] spawn nothing when they are resumed. *)
Lemma start_all_run_task_quiet (tools : option (list string))
  (tasks : list string) (self : Swarm) (l : list (list string * string)) :
  forall (k : nat) (env : Env),
    Forall (keeps (fun s : Sys => spawned (snd s) = l))
      (snd (start_all (imap (fun i => run_task tools (k + i)) tasks)
              (self, env))).
Proof.
  induction tasks as [|task tasks IH]; intros k env; [constructor|].
  rewrite imap_cons. cbn [start_all].
  assert (E1 : imap ((fun i => run_task tools (k + i)) ∘ S) tasks =
               imap (fun i => run_task tools (S k + i)) tasks).
  { apply imap_ext. intros i y _. simpl. f_equal. lia. }
  rewrite E1.
  unfold run_task at 1, then_co, run_prompt, then_co, _invoke_claude.
  destruct (max_concurrent self <? 1)%Z eqn:Hb.
  - specialize (IH (S k) env).
    destruct (start_all (imap (fun i => run_task tools (S k + i)) tasks)
                (self, env)) as [s2 sts].
    cbn [snd]. constructor; [exact I | exact IH].
  - set (env1 := mkEnv _ (ticks env)). specialize (IH (S k) env1).
    destruct (start_all (imap (fun i => run_task tools (S k + i)) tasks)
                (self, env1)) as [s2 sts].
    cbn [snd]. constructor; [|exact IH].
    cbn [keeps]. intros [self' env'] Hq. exact Hq.
Qed.

(** X16.  When [fan_out] returns, it has spawned exactly one process per
    task, in the order of the tasks, each with the task as its prompt, the
    JSON output format, the given tools and the resolved directory. *)
Theorem fan_out_spawns_in_order (tasks : list string) (dir : string)
  (max_conc : Z) (tools : option (list string)) (order : list nat)
  (env env' : Env) (results : list result_dict) :
  (1 <= max_conc)%Z ->
  fan_out tasks dir max_conc tools order env = Some (env', results) ->
  spawned env' =
    spawned env ++
    map (fun task =>
           (["claude"; "-p"; task; "--output-format"; "json"] ++
            match tools with
            | Some (t :: ts) => ["--allowedTools"; String.concat "," (t :: ts)]
            | _ => []
            end,
            path_resolve dir))
      tasks.
Proof.
  intros Hmax. unfold fan_out, new_swarm.
  destruct (max_conc <? 0)%Z eqn:E; [lia|]. cbn [mbind option_bind].
  set (self := mkSwarm empty_state max_conc (path_resolve dir) "json").
  destruct (gather (imap (run_task tools) tasks) order (self, env))
    as [[s' rs]|] eqn:Hg; [|discriminate].
  cbn [mbind option_bind].
  destruct (sorted_by_index rs); [|discriminate].
  cbn [mbind option_bind]. intros H. injection H as <- _.
  pose proof (start_all_run_task_state tools tasks self Hmax 0 env) as Hst.
  eapply (gather_keeps (fun s : Sys => spawned (snd s) = _)) in Hg.
  - rewrite Hg. reflexivity.
  - apply (start_all_run_task_quiet tools tasks self _ 0 env).
  - change (imap (run_task tools) tasks)
      with (imap (fun i => run_task tools (0 + i)) tasks).
    rewrite Hst. cbn [snd spawned]. f_equal.
    apply map_ext. intros t.
    now rewrite (command_line_json self t tools eq_refl).
Qed.

(** X17.  [fan_out] gives no partial result: when the process of one task
    never completes, the call never returns. *)
Theorem fan_out_waits_for_every_task (tasks : list string) (dir : string)
  (max_conc : Z) (tools : option (list string)) (order : list nat)
  (env : Env) (i : nat) :
  i < length tasks ->
  i ∉ order ->
  fan_out tasks dir max_conc tools order env = None.
Proof.
  intros Hi Hout. unfold fan_out, new_swarm.
  destruct (max_conc <? 0)%Z; [reflexivity|]. cbn [mbind option_bind].
  set (self := mkSwarm empty_state max_conc (path_resolve dir) "json").
  pose proof (start_all_run_task_suspended tools tasks self 0 env) as Hs.
  pose proof (start_all_length
                (imap (fun i => run_task tools (0 + i)) tasks) (self, env))
    as Hlen.
  rewrite length_imap in Hlen.
  destruct (lookup_lt_is_Some_2
              (snd (start_all (imap (fun i => run_task tools (0 + i)) tasks)
                      (self, env))) i) as [st Hst]; [lia|].
  rewrite Forall_lookup in Hs. destruct (Hs i st Hst) as (Hslot & _).
  pose proof (gather_waits _ order (self, env) i st Hst Hslot
                (or_intror Hout)) as Hg.
  change (gather (imap (run_task tools) tasks) order (self, env) = None)
    in Hg.
  now rewrite Hg.
Qed.

(** X18.  With a concurrency bound below one, [fan_out] on at least one
    task gives nothing back: a negative bound makes the semaphore raise, and
    with a bound of zero no task is ever started, whatever completes. *)
Theorem fan_out_needs_a_slot (tasks : list string) (dir : string)
  (max_conc : Z) (tools : option (list string)) (order : list nat)
  (env : Env) :
  (max_conc < 1)%Z ->
  tasks <> [] ->
  fan_out tasks dir max_conc tools order env = None.
Proof.
  intros Hb Hne. unfold fan_out, new_swarm.
  destruct (max_conc <? 0)%Z; [reflexivity|]. cbn [mbind option_bind].
  set (self := mkSwarm empty_state max_conc (path_resolve dir) "json").
  pose proof (start_all_run_task_suspended tools tasks self 0 env) as Hs.
  pose proof (start_all_length
                (imap (fun i => run_task tools (0 + i)) tasks) (self, env))
    as Hlen.
  rewrite length_imap in Hlen.
  destruct (lookup_lt_is_Some_2
              (snd (start_all (imap (fun i => run_task tools (0 + i)) tasks)
                      (self, env))) 0) as [st Hst].
  { destruct tasks; [contradiction | simpl in *; lia]. }
  rewrite Forall_lookup in Hs. destruct (Hs 0 st Hst) as (Hslot & Hh).
  pose proof (gather_waits _ order (self, env) 0 st Hst Hslot
                (or_introl (Hh Hb))) as Hg.
  change (gather (imap (run_task tools) tasks) order (self, env) = None)
    in Hg.
  now rewrite Hg.
Qed.

End FanOutMore.

(** * Memory and history are append-only *)

Section AppendOnly.

Context {W : World}.

Lemma agent_extends_refl (a : Agent) : agent_extends a a.
Proof. unfold agent_extends. repeat split; reflexivity. Qed.

Lemma extends_refl (st : SwarmState) : extends st st.
Proof.
  unfold extends. split; [reflexivity|]. split; [reflexivity|].
  split; [reflexivity|].
  intros nm a Hget. exists a. split; [exact Hget | apply agent_extends_refl].
Qed.

Lemma extends_trans (st1 st2 st3 : SwarmState) :
  extends st1 st2 -> extends st2 st3 -> extends st1 st3.
Proof.
  intros (Hk1 & Hc1 & Hh1 & Ha1) (Hk2 & Hc2 & Hh2 & Ha2).
  unfold extends. split; [congruence|]. split; [congruence|].
  split; [etransitivity; eassumption|].
  intros nm a Hget.
  destruct (Ha1 nm a Hget) as (a2 & Hget2 & E1 & E2 & E3 & E4 & E5).
  destruct (Ha2 nm a2 Hget2) as (a3 & Hget3 & F1 & F2 & F3 & F4 & F5).
  exists a3. split; [exact Hget3|].
  unfold agent_extends. repeat split; try congruence.
  etransitivity; eassumption.
Qed.

Lemma extends_append_history (entry : json) (st : SwarmState) :
  extends st (append_history entry st).
Proof.
  unfold extends, append_history. cbn.
  split; [reflexivity|]. split; [reflexivity|].
  split; [now apply prefix_app_r|].
  intros nm a Hget. exists a. split; [exact Hget | apply agent_extends_refl].
Qed.

Lemma extends_append_memory (nm : string) (entry : json) (st : SwarmState) :
  extends st (append_memory nm entry st).
Proof.
  unfold append_memory.
  destruct (PyDict.get nm (agents st)) as [a|] eqn:Hget; [|apply extends_refl].
  unfold extends. cbn. split.
  { apply PyDictFacts.keys_set_present. unfold PyDict.contains.
    now rewrite Hget. }
  split; [reflexivity|]. split; [reflexivity|].
  intros nm' a' Hget'. destruct (String.eqb_spec nm' nm) as [->|Hne].
  - rewrite PyDictFacts.get_set_eq. eexists. split; [reflexivity|].
    assert (a' = a) by congruence. subst a'.
    unfold agent_extends. cbn. repeat split. now apply prefix_app_r.
  - rewrite PyDictFacts.get_set_ne by exact Hne.
    exists a'. split; [exact Hget' | apply agent_extends_refl].
Qed.

(** The children of [dispatch]: starting them leaves the swarm as it is, and
    each, when resumed, only appends. *)
Lemma start_all_invoke_appends (st0 : SwarmState) (self : Swarm)
  (assignments : PyDict.t string) :
  forall env : Env,
    fst (fst (start_all (map (fun '(nm, task) => invoke nm task) assignments)
                (self, env))) = self
    /\ Forall (keeps (fun s : Sys => extends st0 (state (fst s))))
         (snd (start_all (map (fun '(nm, task) => invoke nm task) assignments)
                 (self, env))).
Proof.
  induction assignments as [|[nm task] rest IH]; intros env.
  - split; [reflexivity | constructor].
  - cbn [map start_all]. unfold invoke at 1 3.
    destruct (PyDict.get nm (agents (state self))) as [agent|] eqn:Hget.
    + unfold then_co, _invoke_claude.
      destruct (max_concurrent self <? 1)%Z.
      * destruct (IH env) as [I1 I2].
        destruct (start_all (map (fun '(nm, task) => invoke nm task) rest)
                    (self, env)) as [s2 sts].
        cbn [fst snd] in *. split; [exact I1|].
        constructor; [exact I | exact I2].
      * set (env1 := mkEnv _ (ticks env)).
        destruct (IH env1) as [I1 I2].
        destruct (start_all (map (fun '(nm, task) => invoke nm task) rest)
                    (self, env1)) as [s2 sts].
        cbn [fst snd] in *. split; [exact I1|].
        constructor; [|exact I2].
        cbn [keeps]. intros [self1 e1] Hq. cbn [fst snd now state with_state].
        eapply extends_trans; [exact Hq|].
        eapply extends_trans;
          [apply extends_append_memory | apply extends_append_history].
    + destruct (IH env) as [I1 I2].
      destruct (start_all (map (fun '(nm, task) => invoke nm task) rest)
                  (self, env)) as [s2 sts].
      cbn [fst snd] in *. split; [exact I1|].
      constructor; [exact I | exact I2].
Qed.

(** X19.  [dispatch], and with it [broadcast], only appends: when it
    returns, the registry has the same names in the same order, the context
    is unchanged, the old history is a prefix of the new one, and every agent
    is the agent it was with records appended to its memory, whatever the
    order in which the processes completed. *)
Theorem dispatch_append_only (self : Swarm) (env : Env)
  (assignments : PyDict.t string) (order : list nat) (sys' : Sys)
  (results : list result_dict) :
  dispatch assignments order (self, env) = Some (sys', results) ->
  PyDict.keys (agents (state (fst sys'))) = PyDict.keys (agents (state self))
  /\ shared_context (state (fst sys')) = shared_context (state self)
  /\ history (state self) `prefix_of` history (state (fst sys'))
  /\ forall nm a, PyDict.get nm (agents (state self)) = Some a ->
       exists a', PyDict.get nm (agents (state (fst sys'))) = Some a'
         /\ name a' = name a /\ role a' = role a
         /\ system_prompt a' = system_prompt a
         /\ allowed_tools a' = allowed_tools a
         /\ memory a `prefix_of` memory a'.
Proof.
  unfold dispatch. intros Hg.
  destruct (start_all_invoke_appends (state self) self assignments env)
    as [Hself Hkeeps].
  eapply (gather_keeps (fun s : Sys => extends (state self) (state (fst s))))
    in Hg; [exact Hg | exact Hkeeps |].
  rewrite Hself. apply extends_refl.
Qed.

End AppendOnly.

(** * Further properties of the patterns *)

Section PatternsMore.

Context {W : World}.

(** What [fan_out] returns when every child completes. *)
Lemma fan_out_returns (tasks : list string) (dir : string) (max_conc : Z)
  (tools : option (list string)) (order : list nat) (env : Env) :
  (1 <= max_conc)%Z ->
  completes (length tasks) order ->
  exists env',
    fan_out tasks dir max_conc tools order env =
      Some (env',
            imap (fan_out_entry (path_resolve dir) tools
                    (length (spawned env))) tasks).
Proof.
  intros Hmax Hall. unfold fan_out, new_swarm.
  destruct (max_conc <? 0)%Z eqn:E; [lia|]. cbn [mbind option_bind].
  set (self := mkSwarm empty_state max_conc (path_resolve dir) "json").
  set (rs := imap (fan_out_entry (path_resolve dir) tools
                     (length (spawned env))) tasks).
  assert (Hy : Forall2 yields
                 (snd (start_all (imap (run_task tools) tasks) (self, env)))
                 rs).
  { pose proof (start_all_run_task tools tasks self Hmax eq_refl 0 env
                  (Nat.le_0_l _)) as H.
    rewrite Nat.sub_0_r in H. exact H. }
  destruct (gather_returns (imap (run_task tools) tasks) order (self, env)
              rs Hy) as [s' Hg].
  { now rewrite length_imap. }
  rewrite Hg. cbn [mbind option_bind].
  rewrite sorted_by_index_ascending.
  2:{ intros i r Hr. unfold rs in Hr. rewrite list_lookup_imap in Hr.
      destruct (tasks !! i); simplify_eq/=. reflexivity. }
  cbn [mbind option_bind]. now exists (snd s').
Qed.

Lemma persona_cycle (task : string) (i : nat) :
  persona_task task (i + 3) = persona_task task i.
Proof.
  unfold persona_task. cbn [length personas].
  replace ((i + 3) mod 3) with (i mod 3); [reflexivity|].
  rewrite <- (Nat.Div0.add_mod_idemp_r i 3 3). cbn [Nat.modulo].
  now rewrite Nat.add_0_r.
Qed.

(** X20.  [competitive] with at least one competitor, all of whose
    processes complete, returns one solution per competitor in competitor
    order; solution [i] answers the task followed by the approach of persona
    [i mod 3], so competitors [i] and [i + 3] get the same prompt; the judge
    is asked once, after all solutions are in. *)
Theorem competitive_solutions (task : string) (num_agents : Z) (dir : string)
  (tools : option (list string)) (order : list nat) (env : Env) :
  (1 <= num_agents)%Z ->
  completes (Z.to_nat num_agents) order ->
  exists env' solutions judgment,
    competitive task num_agents dir tools order env =
      Some (env',
            [("task", JStr task);
             ("solutions", JList (map JDict solutions));
             ("judgment", JDict judgment)])
    /\ length solutions = Z.to_nat num_agents
    /\ (forall i, i < Z.to_nat num_agents ->
          exists r, solutions !! i = Some r
            /\ PyDict.get "index" r = Some (JInt (Z.of_nat i))
            /\ PyDict.get "task" r =
                 Some (JStr (task +:+ nl +:+ nl +:+ "Approach: " +:+
                             nth (i mod 3) personas EmptyString)))
    /\ (forall i, persona_task task (i + 3) = persona_task task i)
    /\ judgment =
         process_result
           (run_process (length (spawned env) + Z.to_nat num_agents)
              ["claude"; "-p"; judge_prompt task num_agents solutions;
               "--output-format"; "json"]
              (path_resolve dir)).
Proof.
  intros Hmax Hall. unfold competitive, new_swarm.
  destruct (num_agents <? 0)%Z eqn:E; [lia|]. cbn [mbind option_bind].
  set (n := Z.to_nat num_agents) in *.
  set (tasks := map (persona_task task) (seq 0 n)).
  assert (Hlen : length tasks = n).
  { unfold tasks. now rewrite length_map, length_seq. }
  destruct (fan_out_returns tasks dir num_agents tools order env Hmax)
    as [env1 Hf].
  { now rewrite Hlen. }
  rewrite Hf. cbn [mbind option_bind].
  set (solutions := imap _ tasks).
  set (self := mkSwarm empty_state num_agents (path_resolve dir) "json").
  assert (Hsp : spawned env1 =
                spawned env ++
                map (fun t => (command_line self t tools, cwd self)) tasks).
  { unfold fan_out, new_swarm in Hf. rewrite E in Hf.
    cbn [mbind option_bind] in Hf. fold self in Hf.
    destruct (gather (imap (run_task tools) tasks) order (self, env))
      as [[s' rs]|] eqn:Hg; [|discriminate].
    cbn [mbind option_bind] in Hf.
    destruct (sorted_by_index rs); [|discriminate].
    cbn [mbind option_bind] in Hf. injection Hf as <- _.
    pose proof (start_all_run_task_state tools tasks self Hmax 0 env) as Hst.
    eapply (gather_keeps (fun s : Sys => spawned (snd s) = _)) in Hg.
    - exact Hg.
    - apply (start_all_run_task_quiet tools tasks self _ 0 env).
    - change (imap (run_task tools) tasks)
        with (imap (fun i => run_task tools (0 + i)) tasks).
      now rewrite Hst. }
  rewrite (await_run_prompt self env1 _ None Hmax).
  cbn [mbind option_bind snd].
  eexists _, solutions, _. split; [reflexivity|].
  split; [unfold solutions; now rewrite length_imap|].
  split.
  { intros i Hi. unfold solutions. rewrite list_lookup_imap.
    unfold tasks. rewrite list_lookup_fmap, lookup_seq_lt by exact Hi.
    cbn [fmap option_fmap option_map]. eexists. split; [reflexivity|].
    split; reflexivity. }
  split; [intros i; apply persona_cycle|].
  rewrite Hsp, length_app, length_map, Hlen. reflexivity.
Qed.

(** X21.  [competitive] with no competitor gives nothing back: a negative
    count makes the semaphore raise, and with a count of zero the judge is
    never let through the semaphore, whose bound is the count. *)
Theorem competitive_needs_a_competitor (task : string) (num_agents : Z)
  (dir : string) (tools : option (list string)) (order : list nat)
  (env : Env) :
  (num_agents < 1)%Z ->
  competitive task num_agents dir tools order env = None.
Proof.
  intros Hb. unfold competitive, new_swarm.
  destruct (num_agents <? 0)%Z eqn:E; [reflexivity|].
  cbn [mbind option_bind].
  assert (num_agents = 0%Z) by lia. subst num_agents.
  destruct (fan_out _ dir 0 tools order env) as [[env1 solutions]|];
    reflexivity.
Qed.

Lemma parse_subtasks_list (goal : string) (plan_result : result_dict)
  (payload : json) (l : list json) :
  plan_payload plan_result = Some payload ->
  parsed_plan payload = Some (JList l) ->
  parse_subtasks goal plan_result = l.
Proof.
  unfold parse_subtasks, plan_payload, PyDict.get_default.
  destruct (PyDict.get "result" plan_result) as [raw|]; [|discriminate].
  destruct raw as [| b | z | text | l0 | d]; intros Hp Hl.
  1-5: injection Hp as <-; cbn in Hl |- *; try discriminate;
       try (rewrite Hl; reflexivity); injection Hl as ->; reflexivity.
  rewrite Hp. destruct payload; cbn in Hl |- *; try discriminate;
    try (rewrite Hl; reflexivity); injection Hl as ->; reflexivity.
Qed.

(** X22.  [hierarchical] runs what the planner lists and checks nothing:
    when the planner's list holds an element that is not a string, spawning
    the worker for it raises, and [hierarchical] returns nothing. *)
Theorem hierarchical_rejects_non_strings (goal dir : string)
  (max_subtasks max_conc : Z) (tools : option (list string))
  (order : list nat) (env : Env) (payload : json) (l : list json) (v : json) :
  (1 <= max_conc)%Z ->
  let plan_result :=
    process_result
      (run_process (length (spawned env))
         ["claude"; "-p"; plan_prompt goal max_subtasks;
          "--output-format"; "json"] (path_resolve dir)) in
  plan_payload plan_result = Some payload ->
  parsed_plan payload = Some (JList l) ->
  v ∈ l ->
  as_str v = None ->
  hierarchical goal dir max_subtasks max_conc tools order env = None.
Proof.
  intros Hmax plan_result Hp Hl Hin Hv.
  unfold hierarchical, new_swarm.
  destruct (max_conc <? 0)%Z eqn:E; [lia|]. cbn [mbind option_bind].
  set (self := mkSwarm empty_state max_conc (path_resolve dir) "json").
  rewrite (await_run_prompt self env (plan_prompt goal max_subtasks) None
             Hmax).
  cbn [mbind option_bind].
  change (process_result _) with plan_result.
  rewrite (parse_subtasks_list goal plan_result payload l Hp Hl).
  unfold execute_and_synthesize.
  assert (M : mapM as_str l = None).
  { apply mapM_None_2. apply Exists_exists. eauto. }
  now rewrite M.
Qed.

End PatternsMore.

(** * Properties of the command line front end *)

#[local] Set Warnings "-clear-no-such-hyp".

Section CliProperties.

Import Cli.

Lemma unique_from_spec (tools : list string) :
  forall seen : gset string,
    NoDup (unique_from seen tools)
    /\ (forall t, t ∈ unique_from seen tools <-> t ∈ tools /\ t ∉ seen)
    /\ unique_from seen tools `sublist_of` tools.
Proof.
  induction tools as [|x tools IH]; intros seen; cbn [unique_from].
  - split; [constructor|]. split; [|constructor].
    intros t. split; [intros H; inversion H | intros [H _]; inversion H].
  - destruct (decide (x ∈ seen)) as [Hin|Hout].
    + destruct (IH seen) as (Hnd & Hmem & Hsub).
      split; [exact Hnd|]. split; [|now constructor].
      intros t. rewrite Hmem, elem_of_cons. split; [tauto|].
      intros [[->|H] Hs]; [contradiction | tauto].
    + destruct (IH ({[x]} ∪ seen)) as (Hnd & Hmem & Hsub).
      split; [|split; [|now constructor]].
      * constructor; [|exact Hnd]. rewrite Hmem. set_solver.
      * intros t. rewrite !elem_of_cons, Hmem.
        destruct (decide (t = x)) as [->|Hne]; set_solver.
Qed.

Lemma unique_from_nodup (tools : list string) :
  forall seen : gset string,
    NoDup tools -> (forall t, t ∈ tools -> t ∉ seen) ->
    unique_from seen tools = tools.
Proof.
  induction tools as [|x tools IH]; intros seen Hnd Hfresh; [reflexivity|].
  cbn [unique_from]. apply NoDup_cons in Hnd as [Hx Hnd].
  destruct (decide (x ∈ seen)) as [Hin|Hout].
  - exfalso. apply (Hfresh x); [left | exact Hin].
  - f_equal. apply IH; [exact Hnd|].
    intros t Ht. specialize (Hfresh t (list_elem_of_further _ _ _ Ht)).
    set_solver.
Qed.

(** Marking one more tool as seen removes it from the outcome and nothing
    else. *)
Lemma unique_from_seen (tools : list string) :
  forall (seen : gset string) (x : string),
    unique_from ({[ x ]} ∪ seen) tools =
    filter (fun t => t <> x) (unique_from seen tools).
Proof.
  induction tools as [|y tools IH]; intros seen x; cbn [unique_from];
    [reflexivity|].
  destruct (decide (y ∈ seen)) as [Hin|Hout].
  - rewrite decide_True by set_solver. apply IH.
  - destruct (decide (y = x)) as [->|Hne].
    + rewrite decide_True by set_solver.
      rewrite filter_cons_False by (intros H; now apply H).
      rewrite <- IH. f_equal. set_solver.
    + rewrite decide_False by set_solver.
      rewrite filter_cons_True by exact Hne.
      f_equal. rewrite <- IH. f_equal. set_solver.
Qed.

(** One more tool at the end is appended when it has not been met. *)
Lemma unique_from_snoc (tools : list string) :
  forall (seen : gset string) (t : string),
    unique_from seen (tools ++ [t]) =
    unique_from seen tools ++
    (if decide (t ∈ seen \/ t ∈ tools) then [] else [t]).
Proof.
  induction tools as [|y tools IH]; intros seen t; cbn [app unique_from].
  - destruct (decide (t ∈ seen)) as [Hin|Hout].
    + now rewrite decide_True by (now left).
    + rewrite decide_False; [reflexivity|].
      intros [H|H]; [contradiction | inversion H].
  - destruct (decide (y ∈ seen)) as [Hin|Hout]; rewrite IH.
    + f_equal.
      destruct (decide (t ∈ seen \/ t ∈ tools)) as [H|H].
      * rewrite decide_True; [reflexivity|].
        destruct H as [H|H]; [now left | right; now right].
      * rewrite decide_False; [reflexivity|].
        intros [H'|H']; [apply H; now left|].
        apply elem_of_cons in H' as [->|H']; apply H; [now left | now right].
    + cbn [app]. f_equal. f_equal.
      destruct (decide (t ∈ {[ y ]} ∪ seen \/ t ∈ tools)) as [H|H].
      * rewrite decide_True; [reflexivity|].
        destruct H as [H|H]; [|right; now right].
        apply elem_of_union in H as [H|H]; [|now left].
        apply elem_of_singleton in H as ->. right. left.
      * rewrite decide_False; [reflexivity|].
        intros [H'|H']; apply H; [left; set_solver|].
        apply elem_of_cons in H' as [->|H']; [left; set_solver | now right].
Qed.

(** X23.  The loop of [resolve_tools] that removes duplicates keeps each
    tool at its first occurrence and drops every later one: the first tool
    of the input stays first and its later copies are removed from what the
    loop makes of the rest; a tool added at the end of the input is added at
    the end of the outcome when it does not occur before, and changes
    nothing when it does.  So the outcome has no duplicates, holds exactly
    the tools of the input, in the order of the input, and a list without
    duplicates is returned as it is. *)
Theorem unique_keeps_first (tools : list string) :
  NoDup (unique_from ∅ tools)
  /\ (forall t, t ∈ unique_from ∅ tools <-> t ∈ tools)
  /\ unique_from ∅ tools `sublist_of` tools
  /\ hd_error (unique_from ∅ tools) = hd_error tools
  /\ unique_from ∅ (unique_from ∅ tools) = unique_from ∅ tools
  /\ unique_from ∅ [] = []
  /\ (forall x, unique_from ∅ (x :: tools) =
                x :: filter (fun t => t <> x) (unique_from ∅ tools))
  /\ (forall t, unique_from ∅ (tools ++ [t]) =
                if decide (t ∈ tools) then unique_from ∅ tools
                else unique_from ∅ tools ++ [t]).
Proof.
  destruct (unique_from_spec tools ∅) as (Hnd & Hmem & Hsub).
  split; [exact Hnd|]. split; [intros t; rewrite Hmem; set_solver|].
  split; [exact Hsub|]. split; [|split; [|split; [|split]]].
  - destruct tools as [|x tools]; [reflexivity|]. cbn [unique_from].
    destruct (decide (x ∈ (∅ : gset string))); [set_solver | reflexivity].
  - apply unique_from_nodup; [exact Hnd | set_solver].
  - reflexivity.
  - intros x. cbn [unique_from].
    rewrite decide_False by set_solver. f_equal.
    rewrite <- unique_from_seen. f_equal.
  - intros t. rewrite unique_from_snoc.
    destruct (decide (t ∈ tools)) as [Hin|Hout].
    + rewrite decide_True by (now right). apply app_nil_r.
    + rewrite decide_False; [reflexivity|].
      intros [H|H]; [set_solver | contradiction].
Qed.

Lemma expand_allowed_members (allowed : list string) :
  forall (tools : list string) (t : string),
    t ∈ expand_allowed allowed tools <->
    t ∈ tools \/ exists word, word ∈ allowed /\ selects word t.
Proof.
  induction allowed as [|a allowed IH]; intros tools t; cbn [expand_allowed].
  - split; [now left|]. intros [H|(w & Hw & _)]; [exact H | inversion Hw].
  - rewrite IH. unfold selects at 2.
    assert (Hstep :
      t ∈ (if String.eqb (lower a) "all" then tools ++ profile_tools "all"
           else if PyDict.contains a TOOL_PROFILES
                then tools ++ profile_tools a else tools ++ [a])
      <-> t ∈ tools \/ selects a t).
    { unfold selects.
      destruct (String.eqb (lower a) "all");
        [|destruct (PyDict.contains a TOOL_PROFILES)];
        rewrite elem_of_app; [tauto | tauto |].
      rewrite list_elem_of_singleton. tauto. }
    rewrite Hstep. split.
    + intros [[H|H]|(w & Hw & Hs)]; [now left | | ].
      * right. exists a. split; [left | exact H].
      * right. exists w. split; [now right | exact Hs].
    + intros [H|(w & Hw & Hs)]; [now left; left|].
      apply elem_of_cons in Hw as [->|Hw]; [left; now right|].
      right. exists w. split; assumption.
Qed.

(** X24.  [resolve_tools] stops the program with status 1 exactly when a
    profile is named that is not in the table.  Otherwise it returns [None]
    when nothing is selected, and else a non-empty list without duplicates
    that holds exactly the tools of the profile and the tools selected by the
    words of [--allowed-tools]. *)
Theorem resolve_tools_selection (profile : option string)
  (allowed : option (list string)) :
  let unknown :=
    exists p, profile = Some p /\ p <> EmptyString
              /\ PyDict.contains p TOOL_PROFILES = false in
  let from_profile t :=
    exists p, profile = Some p /\ t ∈ profile_tools p in
  let from_words t :=
    exists words word, allowed = Some words /\ word ∈ words
                       /\ selects word t in
  match resolve_tools profile allowed with
  | Exits code => code = 1%Z /\ unknown
  | Returns None => ~ unknown /\ forall t, ~ from_profile t /\ ~ from_words t
  | Returns (Some l) =>
      ~ unknown /\ l <> [] /\ NoDup l
      /\ forall t, t ∈ l <-> from_profile t \/ from_words t
  end.
Proof.
  intros unknown from_profile from_words.
  unfold resolve_tools.
  set (base := match profile with
               | Some p =>
                   if str_truthy p then
                     if PyDict.contains p TOOL_PROFILES
                     then Returns ([] ++ profile_tools p) else Exits 1
                   else Returns []
               | None => Returns []
               end).
  assert (Hbase :
    match base with
    | Exits code => code = 1%Z /\ unknown
    | Returns tools =>
        ~ unknown /\ forall t, t ∈ tools <-> from_profile t
    end).
  { unfold base, unknown, from_profile.
    destruct profile as [p|].
    - destruct (str_truthy p) eqn:Hp.
      + destruct (PyDict.contains p TOOL_PROFILES) eqn:Hc.
        * split.
          { intros (q & [= <-] & _ & Hq). congruence. }
          intros t. cbn [app]. split; [eauto|].
          now intros (q & [= <-] & Hq).
        * split; [reflexivity|]. exists p. split; [reflexivity|].
          split; [|exact Hc]. intros ->. discriminate.
      + destruct p; [|discriminate]. split.
        { intros (q & [= <-] & Hq & _). contradiction. }
        intros t. split; [intros H; inversion H|].
        intros (q & [= <-] & Hq). vm_compute in Hq. inversion Hq.
    - split; [now intros (q & [=] & _)|].
      intros t. split; [intros H; inversion H | now intros (q & [=] & _)]. }
  destruct base as [code|tools]; [exact Hbase|].
  destruct Hbase as [Hknown Hprof].
  set (all_tools := match allowed with
                    | Some (a :: rest) => expand_allowed (a :: rest) tools
                    | _ => tools
                    end).
  assert (Hall : forall t, t ∈ all_tools <-> from_profile t \/ from_words t).
  { intros t. unfold all_tools, from_words.
    destruct allowed as [[|a rest]|].
    - rewrite Hprof. split; [now left|].
      intros [H|(ws & w & [= <-] & Hw & _)]; [exact H | inversion Hw].
    - rewrite expand_allowed_members, Hprof. split.
      + intros [H|(w & Hw & Hs)]; [now left|]. right. eauto.
      + intros [H|(ws & w & [= <-] & Hw & Hs)]; [now left|]. right. eauto.
    - rewrite Hprof. split; [now left|].
      now intros [H|(ws & w & [=] & _)]. }
  destruct (list_truthy all_tools) eqn:Ht.
  - destruct (unique_from_spec all_tools ∅) as (Hnd & Hmem & _).
    split; [exact Hknown|]. split.
    + destruct all_tools as [|x r]; [discriminate|]. cbn [unique_from].
      destruct (decide (x ∈ (∅ : gset string))); [set_solver | discriminate].
    + split; [exact Hnd|]. intros t. rewrite Hmem, <- Hall. set_solver.
  - destruct all_tools; [|discriminate].
    split; [exact Hknown|]. intros t.
    split; intros H; assert (Hin : t ∈ @nil string)
      by (apply Hall; auto); inversion Hin.
Qed.

Lemma split_once_spec (s : string) :
  (split_once s = None <-> ":"%char ∉ chars s)
  /\ (forall a t, split_once s = Some (a, t) <->
        s = a +:+ ":" +:+ t /\ ":"%char ∉ chars a).
Proof.
  induction s as [|c s [IHn IHs]].
  - split.
    + split; [intros _ H; inversion H | reflexivity].
    + intros a t. split; [discriminate|].
      intros [E _]. destruct a; discriminate.
  - cbn [split_once]. change (chars (String c s)) with (c :: chars s).
    destruct (Ascii.eqb_spec c ":") as [->|Hc].
    + split.
      * split; [discriminate|]. intros H. exfalso. apply H. left.
      * intros a t. split.
        { intros [= <- <-]. split; [reflexivity|]. intros H. inversion H. }
        intros [E Hn]. destruct a as [|x a].
        { change (String ":" s = String ":" t) in E. now injection E as <-. }
        exfalso. rewrite str_app_cons in E. injection E as <- _.
        apply Hn. left.
    + split.
      * destruct (split_once s) as [[a t]|] eqn:Hs.
        { split; [discriminate|]. intros H. exfalso.
          assert (Hin : ":"%char ∉ chars s)
            by (intros Hin; apply H; now right).
          apply IHn in Hin. discriminate. }
        split; [|reflexivity]. intros _ Hin.
        apply elem_of_cons in Hin as [Hin|Hin]; [congruence|].
        now apply (proj1 IHn).
      * intros a t. destruct (split_once s) as [[a0 t0]|] eqn:Hs.
        { split.
          - intros [= <- <-]. destruct (proj1 (IHs a0 t0) eq_refl) as [E Hn].
            split; [rewrite str_app_cons; now f_equal|].
            change (chars (String c a0)) with (c :: chars a0).
            intros Hin. apply elem_of_cons in Hin as [Hin|Hin];
              [congruence | contradiction].
          - intros [E Hn]. destruct a as [|x a].
            + change (String c s = String ":" t) in E.
              injection E as -> _. contradiction.
            + rewrite str_app_cons in E. injection E as <- E.
              assert (Hs' : Some (a0, t0) = Some (a, t)).
              { apply IHs. split; [exact E|].
                intros Hin. apply Hn. now right. }
              now injection Hs' as -> ->. }
        split; [discriminate|].
        intros [E Hn]. destruct a as [|x a].
        { change (String c s = String ":" t) in E.
          injection E as -> _. contradiction. }
        rewrite str_app_cons in E. injection E as <- E.
        assert (Hs' : @None (string * string) = Some (a, t)).
        { apply IHs. split; [exact E|]. intros Hin. apply Hn. now right. }
        discriminate.
Qed.

(** X25.  The [dispatch] action splits each [agent:task] pair at its first
    colon: an agent name without colon and any task, joined by a colon,
    split into that name and that task, colons in the task included; a pair
    without any colon makes the unpacking raise. *)
Theorem split_once_first_colon (agent task pair : string) :
  (":"%char ∉ chars agent ->
     split_once (agent +:+ ":" +:+ task) = Some (agent, task))
  /\ (split_once pair = None <-> ":"%char ∉ chars pair)
  /\ (split_once pair = Some (agent, task) ->
        pair = agent +:+ ":" +:+ task /\ ":"%char ∉ chars agent).
Proof.
  split; [|split].
  - intros Hn. now apply split_once_spec.
  - apply split_once_spec.
  - apply split_once_spec.
Qed.

Lemma parse_assignments_spec (pairs : list string) :
  forall acc : PyDict.t string,
    match parse_assignments pairs acc with
    | Some d =>
        Forall (fun e => is_Some (split_once e)) pairs
        /\ (NoDup (PyDict.keys acc) -> NoDup (PyDict.keys d))
        /\ (forall k, k ∈ PyDict.keys acc -> k ∈ PyDict.keys d)
    | None => Exists (fun e => split_once e = None) pairs
    end.
Proof.
  induction pairs as [|e pairs IH]; intros acc; cbn [parse_assignments].
  - split; [constructor|]. split; auto.
  - destruct (split_once e) as [[a t]|] eqn:He; [|now left].
    specialize (IH (PyDict.set a t acc)).
    destruct (parse_assignments pairs (PyDict.set a t acc)) as [d|].
    + destruct IH as (Hall & Hnd & Hkeys).
      split; [constructor; [rewrite He; eauto | exact Hall]|].
      split.
      * intros H. apply Hnd. now apply PyDictMore.keys_set_nodup.
      * intros k Hk. apply Hkeys.
        destruct (PyDict.get a acc) as [x|] eqn:Hg.
        { rewrite PyDictFacts.keys_set_present; [exact Hk|].
          unfold PyDict.contains. now rewrite Hg. }
        rewrite PyDictMore.keys_set_fresh by exact Hg.
        apply elem_of_app. now left.
    + now right.
Qed.

Lemma parse_assignments_app (pairs more : list string) :
  forall acc : PyDict.t string,
    parse_assignments (pairs ++ more) acc =
    parse_assignments pairs acc ≫= parse_assignments more.
Proof.
  induction pairs as [|e pairs IH]; intros acc; [reflexivity|].
  cbn [app parse_assignments].
  destruct (split_once e) as [[a t]|]; [apply IH | reflexivity].
Qed.

(** The loop writes the split pairs into the dictionary one after
    another. *)
Lemma parse_assignments_update (pairs : list string) :
  forall (acc d : PyDict.t string),
    parse_assignments pairs acc = Some d ->
    exists kvs,
      Forall2 (fun entry kv => split_once entry = Some kv) pairs kvs
      /\ d = PyDict.update acc kvs.
Proof.
  induction pairs as [|e pairs IH]; intros acc d; cbn [parse_assignments].
  - intros [= <-]. exists []. split; [constructor | reflexivity].
  - destruct (split_once e) as [[a t]|] eqn:He; [|discriminate].
    intros Hd. destruct (IH _ _ Hd) as (kvs & Hall & ->).
    exists ((a, t) :: kvs). split; [now constructor | reflexivity].
Qed.

(** Reading a key after a sequence of writes gives the value of the last
    write to that key, and the old value when there is none. *)
Lemma get_update_last (kvs : list (string * string)) :
  forall (acc : PyDict.t string) (k : string),
    PyDict.get k (PyDict.update acc kvs) =
    match last (map snd (filter (fun kv => fst kv = k) kvs)) with
    | Some v => Some v
    | None => PyDict.get k acc
    end.
Proof.
  induction kvs as [|[k0 v0] kvs IH]; intros acc k; [reflexivity|].
  change (PyDict.update acc ((k0, v0) :: kvs))
    with (PyDict.update (PyDict.set k0 v0 acc) kvs).
  rewrite IH. destruct (decide (k0 = k)) as [->|Hne].
  - rewrite filter_cons_True by reflexivity. cbn [map snd].
    rewrite last_cons.
    destruct (last (map snd (filter (fun kv => fst kv = k) kvs)));
      [reflexivity|].
    apply PyDictFacts.get_set_eq.
  - rewrite filter_cons_False by exact Hne.
    destruct (last (map snd (filter (fun kv => fst kv = k) kvs)));
      [reflexivity|].
    apply PyDictFacts.get_set_ne. congruence.
Qed.

(** The keys after a sequence of writes: the old keys, then the new ones in
    the order they are first written. *)
Lemma keys_update_first (kvs : list (string * string)) :
  forall acc : PyDict.t string,
    PyDict.keys (PyDict.update acc kvs) =
    PyDict.keys acc ++
    unique_from (list_to_set (PyDict.keys acc)) (map fst kvs).
Proof.
  induction kvs as [|[k v] kvs IH]; intros acc.
  - cbn [map unique_from]. now rewrite app_nil_r.
  - change (PyDict.update acc ((k, v) :: kvs))
      with (PyDict.update (PyDict.set k v acc) kvs).
    rewrite IH. cbn [map fst unique_from].
    destruct (decide (k ∈ (list_to_set (PyDict.keys acc) : gset string)))
      as [Hin|Hout].
    + apply elem_of_list_to_set in Hin.
      destruct (PyDictMore.get_in_keys k acc Hin) as [x Hx].
      rewrite PyDictFacts.keys_set_present; [reflexivity|].
      unfold PyDict.contains. now rewrite Hx.
    + assert (Hnone : PyDict.get k acc = None).
      { apply PyDictMore.not_in_keys_get. intros Hin. apply Hout.
        now apply elem_of_list_to_set. }
      rewrite PyDictMore.keys_set_fresh by exact Hnone.
      rewrite <- app_assoc. cbn [app]. f_equal. f_equal. f_equal.
      rewrite list_to_set_app_L. set_solver.
Qed.

(** X26.  The assignments the [dispatch] action builds.  The loop fails
    exactly when some pair has no colon.  Otherwise every pair splits at its
    first colon into an agent and a task, and the result maps each agent
    named by some pair, and no other, to the task of the last pair that
    names it; the agents are its keys, each once, in the order in which they
    are first named.  In particular a pair added at the end decides its
    agent's task. *)
Theorem parse_assignments_last_wins (pairs : list string) :
  (parse_assignments pairs [] = None <->
   exists e, e ∈ pairs /\ split_once e = None)
  /\ (forall d, parse_assignments pairs [] = Some d ->
        exists kvs,
          Forall2 (fun entry kv => split_once entry = Some kv) pairs kvs
          /\ NoDup (PyDict.keys d)
          /\ (forall agent, agent ∈ PyDict.keys d <-> agent ∈ map fst kvs)
          /\ PyDict.keys d = unique_from ∅ (map fst kvs)
          /\ (forall agent,
                PyDict.get agent d =
                last (map snd (filter (fun kv => fst kv = agent) kvs))))
  /\ (forall agent task d,
        parse_assignments (pairs ++ [agent +:+ ":" +:+ task]) [] = Some d ->
        ":"%char ∉ chars agent ->
        PyDict.get agent d = Some task).
Proof.
  pose proof (parse_assignments_spec pairs []) as Hspec.
  split; [|split].
  - split.
    + intros Hn. rewrite Hn in Hspec. now apply Exists_exists.
    + intros (e & Hin & He).
      destruct (parse_assignments pairs []) as [d|]; [|reflexivity].
      destruct Hspec as (Hall & _).
      rewrite Forall_forall in Hall. destruct (Hall e Hin) as [x Hx].
      congruence.
  - intros d Hd.
    destruct (parse_assignments_update pairs [] d Hd) as (kvs & Hall & ->).
    exists kvs. split; [exact Hall|].
    assert (Hkeys : PyDict.keys (PyDict.update [] kvs) =
                    unique_from ∅ (map fst kvs))
      by exact (keys_update_first kvs []).
    destruct (unique_from_spec (map fst kvs) ∅) as (Hnd & Hmem & _).
    split; [now rewrite Hkeys|]. split.
    { intros agent. rewrite Hkeys, Hmem. set_solver. }
    split; [exact Hkeys|].
    intros agent. rewrite get_update_last.
    now destruct (last _).
  - intros agent task d Hd Hn. rewrite parse_assignments_app in Hd.
    destruct (parse_assignments pairs []) as [d0|]; [|discriminate].
    cbn [mbind option_bind parse_assignments] in Hd.
    assert (Hsplit : split_once (agent +:+ ":" +:+ task) =
                     Some (agent, task)).
    { apply split_once_spec. split; [reflexivity | exact Hn]. }
    rewrite Hsplit in Hd.
    injection Hd as <-. apply PyDictFacts.get_set_eq.
Qed.

End CliProperties.

(** * Examples of the further properties *)

Lemma completes_1 : completes 1 [0].
Proof. repeat constructor. Qed.

Lemma completes_01 : completes 2 [0; 1].
Proof. repeat constructor. Qed.

Lemma sample_json_roundtrip :
  PyJson.loads (PyJson.dumps (state_document (state sample_swarm))) =
  Some (state_document (state sample_swarm)).
Proof. vm_compute. reflexivity. Qed.

(** X1 on the sample swarm. *)
Lemma remove_agent_effect_witness :
  NoDup (PyDict.keys (agents (state sample_swarm))) /\
  remove_agent sample_swarm "security" =
    (mkSwarm (mkSwarmState [] [("target", JStr "auth.py")] [])
       5 "/srv/project" "json", true).
Proof.
  assert (H : NoDup (PyDict.keys (agents (state sample_swarm))))
    by apply NoDup_singleton.
  split; [exact H|].
  destruct (remove_agent_effect sample_swarm "security" H) as (Hr & _).
  reflexivity.
Defined.

(** X2 on a name the sample swarm does not know. *)
Lemma add_then_remove_agent_witness :
  PyDict.contains "tester" (agents (state sample_swarm)) = false /\
  remove_agent
    (fst (add_agent sample_swarm "tester" "test engineer" EmptyString None))
    "tester" = (sample_swarm, true).
Proof.
  assert (H : PyDict.contains "tester" (agents (state sample_swarm)) = false)
    by reflexivity.
  split; [exact H|].
  exact (add_then_remove_agent sample_swarm "tester" "test engineer"
           EmptyString None H).
Defined.

(** X5 on the sample swarm. *)
Lemma run_prompt_logs_only_witness :
  (1 <= max_concurrent sample_swarm)%Z /\
  exists self' env' result,
    await_co (run_prompt (W := scripted []) "list the files" None)
      (sample_swarm, no_env) = Some ((self', env'), result)
    /\ agents (state self') = agents (state sample_swarm).
Proof.
  assert (H : (1 <= max_concurrent sample_swarm)%Z) by (cbn; lia).
  split; [exact H|].
  destruct (run_prompt_logs_only (W := scripted []) sample_swarm no_env
              "list the files" None H)
    as (self' & env' & result & ts & Hrun & _ & _ & Hag & _).
  exists self', env', result. split; [exact Hrun | exact Hag].
Defined.

(** X6 on a process that fails. *)
Lemma invoke_memory_record_witness :
  (1 <= max_concurrent sample_swarm)%Z /\
  PyDict.get "security" (agents (state sample_swarm)) = Some reviewer /\
  exists self' env' result agent',
    await_co
      (invoke (W := scripted [exits 2 EmptyString "no such file"])
         "security" "scan auth.py")
      (sample_swarm, no_env) = Some ((self', env'), result)
    /\ PyDict.get "security" (agents (state self')) = Some agent'
    /\ length (memory agent') = 1.
Proof.
  assert (H : (1 <= max_concurrent sample_swarm)%Z) by (cbn; lia).
  assert (G : PyDict.get "security" (agents (state sample_swarm)) =
              Some reviewer) by reflexivity.
  split; [exact H|]. split; [exact G|].
  destruct (invoke_memory_record
              (W := scripted [exits 2 EmptyString "no such file"])
              sample_swarm no_env "security" "scan auth.py" reviewer H G)
    as (self' & env' & result & agent' & ts & Hrun & Hget & Hlen & _).
  exists self', env', result, agent'.
  split; [exact Hrun|]. split; [exact Hget | exact Hlen].
Defined.

(** X7 on the sample swarm. *)
Lemma invoke_then_prompt_witness :
  (1 <= max_concurrent sample_swarm)%Z /\
  PyDict.get "security" (agents (state sample_swarm)) = Some reviewer /\
  exists self' env' result agent' record,
    await_co (invoke (W := scripted []) "security" "scan auth.py")
      (sample_swarm, no_env) = Some ((self', env'), result)
    /\ memory agent' = [record].
Proof.
  assert (H : (1 <= max_concurrent sample_swarm)%Z) by (cbn; lia).
  assert (G : PyDict.get "security" (agents (state sample_swarm)) =
              Some reviewer) by reflexivity.
  split; [exact H|]. split; [exact G|].
  destruct (invoke_then_prompt (W := scripted []) sample_swarm no_env
              "security" "scan auth.py" "scan api.py" reviewer H G)
    as (self' & env' & result & agent' & record & Hrun & _ & Hmem & _).
  exists self', env', result, agent', record.
  split; [exact Hrun | exact Hmem].
Defined.

(** X9 on the sample swarm. *)
Lemma broadcast_reaches_all_witness :
  (1 <= max_concurrent sample_swarm)%Z /\
  completes (length (agents (state sample_swarm))) [0] /\
  exists sys' results,
    broadcast (W := scripted []) "report" [0] (sample_swarm, no_env) =
      Some (sys', results)
    /\ length results = 1.
Proof.
  assert (H : (1 <= max_concurrent sample_swarm)%Z) by (cbn; lia).
  split; [exact H|]. split; [exact completes_1|].
  destruct (broadcast_reaches_all (W := scripted []) sample_swarm no_env
              "report" [0] H completes_1)
    as (sys' & results & Hrun & Hlen & _).
  exists sys', results. split; [exact Hrun | exact Hlen].
Defined.

(** X13 on the sample state. *)
Lemma save_load_exact_witness :
  PyJson.loads (PyJson.dumps (state_document (state sample_swarm))) =
    Some (state_document (state sample_swarm)) /\
  length (history (state sample_swarm)) <= 100 /\
  load (W := scripted []) "swarm.json"
    (save (W := scripted []) (state sample_swarm) "swarm.json" ∅) =
  Some (state sample_swarm).
Proof.
  assert (L : length (history (state sample_swarm)) <= 100) by (cbn; lia).
  split; [exact sample_json_roundtrip|]. split; [exact L|].
  exact (save_load_exact (W := scripted []) (state sample_swarm) "swarm.json"
           ∅ sample_json_roundtrip L).
Defined.

(** X14 on the sample state. *)
Lemma save_load_stable_witness :
  load (W := scripted []) "swarm.json"
    (save (W := scripted []) (state sample_swarm) "swarm.json" ∅) =
    Some (state sample_swarm) /\
  load (W := scripted []) "swarm.json"
    (save (W := scripted []) (state sample_swarm) "swarm.json"
       (save (W := scripted []) (state sample_swarm) "swarm.json" ∅)) =
    Some (state sample_swarm).
Proof.
  assert (H : load (W := scripted []) "swarm.json"
                (save (W := scripted []) (state sample_swarm) "swarm.json" ∅) =
              Some (state sample_swarm))
    by exact (load_after_save (W := scripted []) (state sample_swarm)
                "swarm.json" ∅ sample_json_roundtrip).
  split; [exact H|].
  exact (save_load_stable (W := scripted []) (state sample_swarm)
           (state sample_swarm) "swarm.json" ∅ _
           sample_json_roundtrip sample_json_roundtrip H).
Defined.

(** X15 on a file that is not JSON. *)
Lemma load_malformed_witness :
  (<["/srv/project/swarm.json" := "not json"]> (∅ : FileSystem))
    !! @path_resolve (scripted []) "swarm.json" = Some "not json" /\
  load (W := scripted []) "swarm.json"
    (<["/srv/project/swarm.json" := "not json"]> (∅ : FileSystem)) = None.
Proof.
  assert (H : (<["/srv/project/swarm.json" := "not json"]> (∅ : FileSystem))
                !! @path_resolve (scripted []) "swarm.json" =
              Some "not json")
    by exact (lookup_insert_eq _ "/srv/project/swarm.json" _).
  split; [exact H|].
  apply (load_malformed (W := scripted []) "swarm.json" "not json" _ H).
  vm_compute. reflexivity.
Defined.

(** X16 on two tasks. *)
Lemma fan_out_spawns_in_order_witness :
  (1 <= 5)%Z /\
  exists env' results,
    fan_out (W := scripted []) ["a"; "b"] "." 5 None [1; 0] no_env =
      Some (env', results)
    /\ map (fun c => nth 2 (fst c) EmptyString) (spawned env') = ["a"; "b"].
Proof.
  assert (H : (1 <= 5)%Z) by lia.
  split; [exact H|].
  destruct (fan_out_returns (W := scripted []) ["a"; "b"] "." 5 None [1; 0]
              no_env H completes_2) as [env' Hrun].
  exists env'. eexists. split; [exact Hrun|].
  rewrite (fan_out_spawns_in_order (W := scripted []) ["a"; "b"] "." 5 None
             [1; 0] no_env env' _ H Hrun).
  reflexivity.
Defined.

(** X17 when the second process never completes. *)
Lemma fan_out_waits_for_every_task_witness :
  (1 < length ["a"; "b"]) /\ (1 ∉ [0]) /\
  fan_out (W := scripted []) ["a"; "b"] "." 5 None [0] no_env = None.
Proof.
  assert (H : 1 < length ["a"; "b"]) by (cbn; lia).
  assert (G : 1 ∉ [0]).
  { intros Hin. apply list_elem_of_singleton in Hin. discriminate. }
  split; [exact H|]. split; [exact G|].
  exact (fan_out_waits_for_every_task (W := scripted []) ["a"; "b"] "." 5 None
           [0] no_env 1 H G).
Defined.

(** X18 with a bound of zero. *)
Lemma fan_out_needs_a_slot_witness :
  (0 < 1)%Z /\ ["a"] <> [] /\
  fan_out (W := scripted []) ["a"] "." 0 None [0] no_env = None.
Proof.
  assert (H : (0 < 1)%Z) by lia.
  assert (G : ["a"] <> []) by discriminate.
  split; [exact H|]. split; [exact G|].
  exact (fan_out_needs_a_slot (W := scripted []) ["a"] "." 0 None [0] no_env
           H G).
Defined.

(** X19 on one registered and one unknown name. *)
Lemma dispatch_append_only_witness :
  exists sys' results,
    dispatch (W := scripted []) [("security", "scan"); ("ghost", "scan")]
      [0; 1] (sample_swarm, no_env) = Some (sys', results)
    /\ PyDict.keys (agents (state (fst sys'))) = ["security"].
Proof.
  destruct (dispatch (W := scripted []) [("security", "scan"); ("ghost", "scan")]
              [0; 1] (sample_swarm, no_env)) as [[sys' results]|] eqn:Hd.
  - exists sys', results. split; [reflexivity|].
    destruct (dispatch_append_only (W := scripted []) sample_swarm no_env
                _ _ sys' results Hd) as (Hk & _).
    exact Hk.
  - vm_compute in Hd. discriminate.
Defined.

(** X20 with two competitors. *)
Lemma competitive_solutions_witness :
  (1 <= 2)%Z /\ completes (Z.to_nat 2) [0; 1] /\
  exists env' solutions judgment,
    competitive (W := scripted []) "sort a list" 2 "." None [0; 1] no_env =
      Some (env',
            [("task", JStr "sort a list");
             ("solutions", JList (map JDict solutions));
             ("judgment", JDict judgment)])
    /\ length solutions = 2.
Proof.
  assert (H : (1 <= 2)%Z) by lia.
  split; [exact H|]. split; [exact completes_01|].
  destruct (competitive_solutions (W := scripted []) "sort a list" 2 "." None
              [0; 1] no_env H completes_01)
    as (env' & solutions & judgment & Hrun & Hlen & _).
  exists env', solutions, judgment. split; [exact Hrun | exact Hlen].
Defined.

(** X21 with no competitor. *)
Lemma competitive_needs_a_competitor_witness :
  (0 < 1)%Z /\
  competitive (W := scripted []) "sort a list" 0 "." None [] no_env = None.
Proof.
  assert (H : (0 < 1)%Z) by lia.
  split; [exact H|].
  exact (competitive_needs_a_competitor (W := scripted []) "sort a list" 0 "."
           None [] no_env H).
Defined.

(** X22 on a planner that lists a number. *)
Lemma hierarchical_rejects_non_strings_witness :
  (1 <= 5)%Z /\ JInt 1 ∈ [JInt 1] /\ as_str (JInt 1) = None /\
  hierarchical (W := scripted [exits 0 "[1]" EmptyString])
    "ship it" "." 5 5 None [0] no_env = None.
Proof.
  assert (H : (1 <= 5)%Z) by lia.
  assert (G : JInt 1 ∈ [JInt 1]) by left.
  split; [exact H|]. split; [exact G|]. split; [reflexivity|].
  apply (hierarchical_rejects_non_strings
           (W := scripted [exits 0 "[1]" EmptyString])
           "ship it" "." 5 5 None [0] no_env (JList [JInt 1]) [JInt 1]
           (JInt 1) H); [vm_compute; reflexivity | reflexivity | exact G |
                         reflexivity].
Defined.

(** X23 on a list that repeats a tool. *)
Example unique_from_repeated_tool :
  Cli.unique_from ∅ ["Read"; "Bash"; "Grep"; "Bash"] =
  ["Read"; "Bash"; "Grep"].
Proof. vm_compute. reflexivity. Qed.

(** X26 on an agent that is named twice. *)
Example parse_assignments_repeated_agent :
  Cli.parse_assignments ["a:1"; "a:2"; "b:3"] [] =
  Some [("a", "2"); ("b", "3")].
Proof. reflexivity. Qed.

(** Two paths that resolve alike name one file: what is saved under one is
    loaded under the other. *)
Example load_through_other_path :
  load (W := scripted []) "./swarm.json"
    (save (W := scripted []) (state sample_swarm) "swarm.json" ∅) =
  Some (state sample_swarm).
Proof.
  exact (load_after_save (W := scripted []) (state sample_swarm)
           "swarm.json" ∅ sample_json_roundtrip).
Qed.

(** [strip] on text between a no-break space and a next-line character. *)
Example strip_no_break_space :
  strip (String "160" ("boom" +:+ String "133" EmptyString)) = "boom".
Proof. vm_compute. reflexivity. Qed.
